(** * Novatek NT35950 DriverIC panel driver: lifecycle and command script

    Shallow embedding of [drivers/gpu/drm/panel/panel-novatek-nt35950.c].

    The driver talks to three kernel subsystems (regulators, one reset GPIO,
    the MIPI-DSI command transport).  Every call into one of them is recorded
    as an [event] in a chronological trace; what such a call returns is
    decided by an oracle that sees the whole trace so far, so the environment
    may answer differently every time.  A dereference of a NULL pointer ends
    the run with [Oops]. *)

From Stdlib Require Import ZArith List String Bool Lia.
Import ListNotations.
Open Scope Z_scope.

Module NT35950.

(** ** Constants of the driver (lines 19-35) *)

Definition BIT (n : Z) : Z := Z.shiftl 1 n.

Definition MCS_CMD_MAUCCTR : Z := 0xF0.
Definition MCS_PARAM_SCALER_FUNCTION : Z := 0x58.
Definition MCS_PARAM_DATA_COMPRESSION : Z := 0x90.
Definition MCS_DATA_COMPRESSION_NONE : Z := 0x00.
Definition MCS_DATA_COMPRESSION_FBC : Z := 0x02.
Definition MCS_DATA_COMPRESSION_DSC : Z := 0x03.
Definition MCS_PARAM_DISP_OUTPUT_CTRL : Z := 0xb4.
Definition MCS_DISP_OUT_SRAM_EN : Z := BIT 0.
Definition MCS_DISP_OUT_VIDEO_MODE : Z := BIT 4.
Definition MCS_PARAM_SPR_EN : Z := 0xe3.
Definition MCS_PARAM_SPR_MODE : Z := 0xef.
Definition NT35950_VREG_MAX : nat := 6.

(** Conversion to [u8]. *)
Definition u8 (x : Z) : Z := x mod 256.

(** ** Data model *)

(** [enum mipi_dsi_dcs_tear_mode] and [enum mipi_dsi_pixel_format] of
    [drm_mipi_dsi.h]. *)
Inductive mipi_dsi_dcs_tear_mode : Type :=
| MIPI_DSI_DCS_TEAR_MODE_VBLANK
| MIPI_DSI_DCS_TEAR_MODE_VHBLANK.

Inductive mipi_dsi_pixel_format : Type :=
| MIPI_DSI_FMT_RGB888
| MIPI_DSI_FMT_RGB666
| MIPI_DSI_FMT_RGB666_PACKED
| MIPI_DSI_FMT_RGB565.

(** The fields of [struct mipi_dsi_device] the driver touches. *)
Record mipi_dsi_device : Type := {
  lanes : Z;
  format : mipi_dsi_pixel_format;
  mode_flags : Z            (* unsigned long *)
}.

Record nt35950_panel_desc : Type := {
  model_name : string;
  num_lanes : Z;
  enable_sram : bool;
  is_video_mode : bool;
  is_dual_dsi : bool
}.

(** [struct nt35950].  A pointer field is an [option]: [None] is NULL.  The
    two entries of [dsi[2]] are the fields [dsi0] and [dsi1]; [vregs] keeps
    the supply name of every entry of the regulator table. *)
Record nt35950 : Type := {
  dsi0 : option mipi_dsi_device;
  dsi1 : option mipi_dsi_device;
  vregs : list string;
  reset_gpio : bool;         (* descriptor acquired *)
  desc : option nt35950_panel_desc;
  prepared : bool
}.

(** Modelled from the spec: the DCS helpers [mipi_dsi_dcs_set_tear_on],
    [mipi_dsi_dcs_set_tear_scanline], [mipi_dsi_dcs_exit_sleep_mode],
    [mipi_dsi_dcs_set_display_on], [mipi_dsi_dcs_set_display_off] and
    [mipi_dsi_dcs_enter_sleep_mode] of [drm_mipi_dsi.c] are not part of this
    file; the specification describes them as a convenience set built on the
    transport write, each a single fixed encoded command.

    What goes over the DSI link in one transfer is therefore a raw buffer
    handed to [mipi_dsi_dcs_write_buffer], or one of these helpers, named by
    its constructor. *)
Inductive dcs_packet : Type :=
| Buffer (d : list Z)
| SetTearOn (mode : mipi_dsi_dcs_tear_mode)
| SetTearScanline (scanline : Z)
| ExitSleepMode
| SetDisplayOn
| SetDisplayOff
| EnterSleepMode.

Inductive event : Type :=
| EvRegulatorEnable (idx : nat)                (* regulator_enable(vregs[idx].consumer) *)
| EvRegulatorBulkDisable (n : nat)             (* regulator_bulk_disable(n, vregs) *)
| EvGpioSet (value : Z)                        (* gpiod_set_value_cansleep(reset_gpio, value) *)
| EvUsleepRange (min max : Z)                  (* usleep_range(min, max), microseconds *)
| EvMsleep (ms : Z)                            (* msleep(ms) *)
| EvDsiWrite (link : nat) (p : dcs_packet)     (* a transfer on nt->dsi[link] *)
| EvDsiAttach (link : nat)                     (* mipi_dsi_attach(nt->dsi[link]) *)
| EvPanelAdd                                   (* drm_panel_add *)
| EvDevErr (msg : string) (code : Z).          (* dev_err *)

(** Modelled from the spec: the regulator core and gpiolib are not part of
    this file.  The specification gives [enable(handle) -> ok | error],
    [bulk_disable(handles)] (no error) and [set(handle, level)] for the reset
    control.

    The world is the driver structure together with the hardware it drives:
    a regulator is kept with the number of outstanding enables ([use_count],
    indexed like [vregs]) and is on while that number is positive; the reset
    line is kept with its last written logical value; [trace] lists every
    call into the kernel in the order it was made. *)
Record world : Type := {
  nt : nt35950;
  use_count : nat -> nat;
  reset_value : Z;
  trace : list event
}.

Definition set_mode_flags (d : mipi_dsi_device) (f : Z) : mipi_dsi_device :=
  {| lanes := lanes d; format := format d; mode_flags := f |}.

Definition set_dsi (p : nt35950) (i : nat) (d : option mipi_dsi_device) : nt35950 :=
  match i with
  | O => {| dsi0 := d; dsi1 := dsi1 p; vregs := vregs p;
            reset_gpio := reset_gpio p; desc := desc p; prepared := prepared p |}
  | _ => {| dsi0 := dsi0 p; dsi1 := d; vregs := vregs p;
            reset_gpio := reset_gpio p; desc := desc p; prepared := prepared p |}
  end.

Definition get_dsi (p : nt35950) (i : nat) : option mipi_dsi_device :=
  match i with
  | O => dsi0 p
  | _ => dsi1 p
  end.

Definition set_prepared (p : nt35950) (b : bool) : nt35950 :=
  {| dsi0 := dsi0 p; dsi1 := dsi1 p; vregs := vregs p;
     reset_gpio := reset_gpio p; desc := desc p; prepared := b |}.

Definition set_nt (w : world) (p : nt35950) : world :=
  {| nt := p; use_count := use_count w; reset_value := reset_value w; trace := trace w |}.

Definition log (w : world) (e : event) : world :=
  {| nt := nt w; use_count := use_count w; reset_value := reset_value w;
     trace := trace w ++ [e] |}.

(** ** The monad of driver code: state passing with a fault *)

Inductive outcome (A : Type) : Type :=
| Ret (a : A) (w : world)      (* the function returned [a] *)
| Oops (w : world).            (* NULL pointer dereference in world [w] *)
Arguments Ret {A} a w.
Arguments Oops {A} w.

Definition M (A : Type) : Type := world -> outcome A.

Definition ret {A : Type} (a : A) : M A := fun w => Ret a w.

Definition bind {A B : Type} (m : M A) (f : A -> M B) : M B :=
  fun w => match m w with
           | Ret a w' => f a w'
           | Oops w' => Oops w'
           end.

Declare Scope drv_scope.
Delimit Scope drv_scope with drv.
Notation "x <- m ;; k" := (bind m (fun x => k))
  (at level 61, m at next level, right associativity) : drv_scope.
Notation "m ;; k" := (bind m (fun _ => k))
  (at level 61, right associativity) : drv_scope.
Open Scope drv_scope.

(** The world in which an outcome was produced. *)
Definition final {A : Type} (o : outcome A) : world :=
  match o with
  | Ret _ w => w
  | Oops w => w
  end.

(** ** Kernel primitives *)

Definition emit (e : event) : M unit := fun w => Ret tt (log w e).

Definition usleep_range (min max : Z) : M unit := emit (EvUsleepRange min max).
Definition msleep (ms : Z) : M unit := emit (EvMsleep ms).
Definition dev_err (msg : string) (code : Z) : M unit := emit (EvDevErr msg code).

(** Modelled from the spec: [gpiod_set_value_cansleep] on the reset line,
    [set(handle, level)], which cannot fail. *)
Definition gpiod_set_value_cansleep (value : Z) : M unit :=
  fun w => Ret tt (log {| nt := nt w; use_count := use_count w;
                          reset_value := value; trace := trace w |}
                       (EvGpioSet value)).

(** [nt->dsi[i]->mode_flags = f (nt->dsi[i]->mode_flags)]. *)
Definition update_mode_flags (i : nat) (f : Z -> Z) : M unit :=
  fun w => match get_dsi (nt w) i with
           | None => Oops w
           | Some d => Ret tt (set_nt w (set_dsi (nt w) i
                                           (Some (set_mode_flags d (f (mode_flags d))))))
           end.

(** [nt->desc->...]. *)
Definition read_desc : M nt35950_panel_desc :=
  fun w => match desc (nt w) with
           | None => Oops w
           | Some d => Ret d w
           end.

Definition get_prepared : M bool := fun w => Ret (prepared (nt w)) w.

Definition put_prepared (b : bool) : M unit :=
  fun w => Ret tt (set_nt w (set_prepared (nt w) b)).

Definition enable_count (c : nat -> nat) (idx : nat) : nat -> nat :=
  fun j => if Nat.eqb j idx then S (c j) else c j.

Definition bulk_disable_count (c : nat -> nat) (n : nat) : nat -> nat :=
  fun j => if Nat.ltb j n then Nat.pred (c j) else c j.

(** Modelled from the spec: [regulator_bulk_disable] of the regulator core,
    [bulk_disable(handles)] (no error): one enable less outstanding on each
    of the first [n] regulators of the table. *)
Definition regulator_bulk_disable (n : nat) : M unit :=
  fun w => Ret tt (log {| nt := nt w; use_count := bulk_disable_count (use_count w) n;
                          reset_value := reset_value w; trace := trace w |}
                       (EvRegulatorBulkDisable n)).

(** ** The environment of [probe]

    What device-managed allocation, the regulator core, the device tree, the
    GPIO lookup, the DSI host lookup and the backlight lookup answer while
    the driver binds.  A pointer result is an [option] or a [bool] (was a
    non-NULL pointer returned); an [ERR_PTR] result carries its code. *)
Record regulator_env : Type := {
  devm_regulator_bulk_get_result : Z;
  regulator_is_supported_voltage_result : nat -> Z -> Z -> Z
}.

Inductive gpiod_lookup : Type :=
| GpiodDesc
| GpiodErr (code : Z).        (* IS_ERR, with its PTR_ERR *)

Record probe_env : Type := {
  devm_kzalloc_ok : bool;
  of_device_get_match_data_result : option nt35950_panel_desc;
  devm_gpiod_get_result : gpiod_lookup;
  of_graph_get_remote_node_ok : bool;
  of_find_mipi_dsi_host_by_node_ok : bool;
  mipi_dsi_device_register_full_result : option mipi_dsi_device;
  drm_panel_of_backlight_result : Z;
  mipi_dsi_attach_result : nat -> Z
}.

(** What [devm_kzalloc] hands out: a zeroed [struct nt35950]. *)
Definition nt35950_zero : nt35950 :=
  {| dsi0 := None; dsi1 := None;
     vregs := repeat EmptyString NT35950_VREG_MAX;
     reset_gpio := false; desc := None; prepared := false |}.

Fixpoint list_set {A : Type} (l : list A) (i : nat) (x : A) : list A :=
  match l, i with
  | [], _ => []
  | _ :: t, O => x :: t
  | h :: t, S i' => h :: list_set t i' x
  end.

(** [nt = devm_kzalloc(...)] when it succeeds: a zeroed structure. *)
Definition devm_kzalloc : M unit :=
  fun w => Ret tt (set_nt w nt35950_zero).

(** [nt->vregs[i].supply = name]. *)
Definition set_supply (i : nat) (name : string) : M unit :=
  fun w => Ret tt (set_nt w
    {| dsi0 := dsi0 (nt w); dsi1 := dsi1 (nt w);
       vregs := list_set (vregs (nt w)) i name;
       reset_gpio := reset_gpio (nt w); desc := desc (nt w);
       prepared := prepared (nt w) |}).

Definition put_desc (d : option nt35950_panel_desc) : M unit :=
  fun w => Ret tt (set_nt w
    {| dsi0 := dsi0 (nt w); dsi1 := dsi1 (nt w); vregs := vregs (nt w);
       reset_gpio := reset_gpio (nt w); desc := d;
       prepared := prepared (nt w) |}).

Definition put_reset_gpio : M unit :=
  fun w => Ret tt (set_nt w
    {| dsi0 := dsi0 (nt w); dsi1 := dsi1 (nt w); vregs := vregs (nt w);
       reset_gpio := true; desc := desc (nt w);
       prepared := prepared (nt w) |}).

(** [nt->dsi[i] = d]. *)
Definition put_dsi (i : nat) (d : option mipi_dsi_device) : M unit :=
  fun w => Ret tt (set_nt w (set_dsi (nt w) i d)).

(** An assignment through [nt->dsi[i]->...]. *)
Definition update_dsi (i : nat) (f : mipi_dsi_device -> mipi_dsi_device) : M unit :=
  fun w => match get_dsi (nt w) i with
           | None => Oops w
           | Some d => Ret tt (set_nt w (set_dsi (nt w) i (Some (f d))))
           end.

(** Lines 567-579. *)
Definition sharp_ls055d1sx04 : nt35950_panel_desc :=
  {| model_name := "Sharp LS055D1SX04";
     num_lanes := 4;
     enable_sram := true;
     is_video_mode := false;
     is_dual_dsi := true |}.

(** ** Vocabulary of the properties *)

Definition is_transport_write (e : event) : bool :=
  match e with
  | EvDsiWrite _ _ => true
  | _ => false
  end.

(** Number of transfers handed to the DSI transport in a trace. *)
Definition transport_writes (t : list event) : nat :=
  List.length (filter is_transport_write t).

(** Rails in the order of the power-up path, with the settle delay after
    each group (microseconds). *)
Definition power_up_events : list event :=
  [ EvRegulatorEnable 0; EvUsleepRange 2000 5000;
    EvRegulatorEnable 5; EvUsleepRange 15000 18000;
    EvRegulatorEnable 3; EvRegulatorEnable 4; EvUsleepRange 12000 13000;
    EvRegulatorEnable 1; EvRegulatorEnable 2; EvUsleepRange 15000 16000 ].

(** Assert 12-13 ms, deassert 0.3-0.4 ms, assert 12-13 ms. *)
Definition reset_pulse_events : list event :=
  [ EvGpioSet 1; EvUsleepRange 12000 13000;
    EvGpioSet 0; EvUsleepRange 300 400;
    EvGpioSet 1; EvUsleepRange 12000 13000 ].

(** The display-output-control byte for a descriptor. *)
Definition dispout_byte (d : nt35950_panel_desc) : Z :=
  Z.lor (if is_video_mode d then 0x10 else 0) (if enable_sram d then 0x01 else 0).

(** Everything a complete on-script hands to the transport, with its two
    120 ms waits. *)
Definition on_script_events (d : nt35950_panel_desc) : list event :=
  [ EvDsiWrite 0 (Buffer [0xf0; 0x55; 0xaa; 0x52; 0x08; 0x07]);
    EvDsiWrite 0 (Buffer [0xe3; 0x01]);
    EvDsiWrite 0 (Buffer [0xef; 0x01]);
    EvDsiWrite 0 (Buffer [0xf0; 0x55; 0xaa; 0x52; 0x08; 0x00]);
    EvDsiWrite 0 (Buffer [0xc9; 0x01]);
    EvDsiWrite 0 (Buffer [0x90; 0x00]);
    EvDsiWrite 0 (Buffer [0x58; 0x01]);
    EvDsiWrite 0 (Buffer [0xb4; dispout_byte d]);
    EvDsiWrite 0 (Buffer [0xbd; 0x00; 0xac; 0x0c; 0x0c; 0x00;
                          0x01; 0x56; 0x09; 0x09; 0x01;
                          0x01; 0x0c; 0x0c; 0x00; 0xd9]);
    EvDsiWrite 0 (SetTearOn MIPI_DSI_DCS_TEAR_MODE_VBLANK);
    EvDsiWrite 0 (SetTearScanline 0);
    EvDsiWrite 0 (Buffer [0xf0; 0x55; 0xaa; 0x52; 0x08; 0x01]);
    EvDsiWrite 0 (Buffer [0xd4; 0x88; 0x88]);
    EvDsiWrite 0 (Buffer [0xff; 0xaa; 0x55; 0xa5; 0x80]);
    EvDsiWrite 0 (Buffer [0x6f; 0x01]);
    EvDsiWrite 0 (Buffer [0xf3; 0x10]);
    EvDsiWrite 0 (Buffer [0xff; 0xaa; 0x55; 0xa5; 0x00]);
    EvDsiWrite 0 ExitSleepMode;
    EvMsleep 120;
    EvDsiWrite 0 SetDisplayOn;
    EvMsleep 120 ].

(** The world once the six rails are up and the reset pulse is done. *)
Definition powered_up (w : world) : world :=
  {| nt := nt w;
     use_count :=
       enable_count (enable_count (enable_count (enable_count (enable_count
         (enable_count (use_count w) 0) 5) 3) 4) 1) 2;
     reset_value := 1;
     trace := trace w ++ power_up_events ++ reset_pulse_events |}.

(** The supply names of the regulator table, by index. *)
Definition supply (p : nt35950) (idx : nat) : string :=
  nth idx (vregs p) EmptyString.

(** ** Concrete panels and environments *)

(** [MIPI_DSI_MODE_LPM] as [drm_mipi_dsi.h] has it. *)
Definition ex_LPM : Z := BIT 11.

Definition ex_link (flags : Z) : mipi_dsi_device :=
  {| lanes := 4; format := MIPI_DSI_FMT_RGB888; mode_flags := flags |}.

(** A bound dual-link panel, not prepared, with the given link flags. *)
Definition ex_dual (flags : Z) : nt35950 :=
  {| dsi0 := Some (ex_link flags); dsi1 := Some (ex_link flags);
     vregs := ["vddio"; "tvddio"; "tavdd"; "avdd"; "avee"; "dvdd"]%string;
     reset_gpio := true; desc := Some sharp_ls055d1sx04; prepared := false |}.

(** A bound single-link panel: no secondary link. *)
Definition ex_single_desc : nt35950_panel_desc :=
  {| model_name := "single"; num_lanes := 4; enable_sram := true;
     is_video_mode := false; is_dual_dsi := false |}.

Definition ex_single (flags : Z) : nt35950 :=
  {| dsi0 := Some (ex_link flags); dsi1 := None;
     vregs := ["vddio"; "tvddio"; "tavdd"; "avdd"; "avee"; "dvdd"]%string;
     reset_gpio := true; desc := Some ex_single_desc; prepared := false |}.

(** Power off, reset low, nothing happened yet. *)
Definition ex_world (p : nt35950) : world :=
  {| nt := p; use_count := fun _ => O; reset_value := 0; trace := [] |}.

(** Every regulator enables; every transfer succeeds. *)
Definition ex_enable_ok : list event -> nat -> Z := fun _ _ => 0.
Definition ex_transfer_ok : list event -> nat -> dcs_packet -> Z :=
  fun _ _ p => match p with
               | Buffer d => Z.of_nat (List.length d)
               | _ => 0
               end.

(** [vddio] enables, [dvdd] fails with -EINVAL. *)
Definition ex_enable_dvdd_fails : list event -> nat -> Z :=
  fun _ idx => if Nat.eqb idx 5 then -22 else 0.

(** The transport fails [display off] with -EIO, [enter sleep] with -EIO,
    and everything ([select page 7] first) with -EIO. *)
Definition ex_transfer_display_off_fails : list event -> nat -> dcs_packet -> Z :=
  fun _ _ p => match p with
               | SetDisplayOff => -5
               | Buffer d => Z.of_nat (List.length d)
               | _ => 0
               end.
Definition ex_transfer_enter_sleep_fails : list event -> nat -> dcs_packet -> Z :=
  fun _ _ p => match p with
               | EnterSleepMode => -5
               | Buffer d => Z.of_nat (List.length d)
               | _ => 0
               end.
Definition ex_transfer_fails : list event -> nat -> dcs_packet -> Z :=
  fun _ _ _ => -5.

(** Error numbers and mode flags as the kernel headers have them. *)
Definition ex_ENOMEM : Z := 12.
Definition ex_ENODEV : Z := 19.
Definition ex_EPROBE_DEFER : Z := 517.
Definition ex_MODE_VIDEO : Z := BIT 0.
Definition ex_MODE_EOT_PACKET : Z := BIT 9.
Definition ex_CLOCK_NON_CONTINUOUS : Z := BIT 10.

(** Regulators: all fine; vddio out of range; handles not acquired. *)
Definition ex_regs_ok : regulator_env :=
  {| devm_regulator_bulk_get_result := 0;
     regulator_is_supported_voltage_result := fun _ _ _ => 1 |}.
Definition ex_regs_unsupported : regulator_env :=
  {| devm_regulator_bulk_get_result := 0;
     regulator_is_supported_voltage_result :=
       fun idx _ _ => if Nat.eqb idx 0 then 0 else 1 |}.
Definition ex_regs_bulk_get_fails : regulator_env :=
  {| devm_regulator_bulk_get_result := -19;
     regulator_is_supported_voltage_result := fun _ _ _ => 1 |}.

(** Everything else the driver asks for while binding is there. *)
Definition ex_env (d : nt35950_panel_desc) : probe_env :=
  {| devm_kzalloc_ok := true;
     of_device_get_match_data_result := Some d;
     devm_gpiod_get_result := GpiodDesc;
     of_graph_get_remote_node_ok := true;
     of_find_mipi_dsi_host_by_node_ok := true;
     mipi_dsi_device_register_full_result := Some (ex_link 0);
     drm_panel_of_backlight_result := 0;
     mipi_dsi_attach_result := fun _ => 0 |}.

(** The host of the secondary link has not probed yet. *)
Definition ex_env_no_host (d : nt35950_panel_desc) : probe_env :=
  {| devm_kzalloc_ok := true;
     of_device_get_match_data_result := Some d;
     devm_gpiod_get_result := GpiodDesc;
     of_graph_get_remote_node_ok := true;
     of_find_mipi_dsi_host_by_node_ok := false;
     mipi_dsi_device_register_full_result := Some (ex_link 0);
     drm_panel_of_backlight_result := 0;
     mipi_dsi_attach_result := fun _ => 0 |}.

(** Every attach is refused with -ENODEV. *)
Definition ex_env_attach_fails (d : nt35950_panel_desc) : probe_env :=
  {| devm_kzalloc_ok := true;
     of_device_get_match_data_result := Some d;
     devm_gpiod_get_result := GpiodDesc;
     of_graph_get_remote_node_ok := true;
     of_find_mipi_dsi_host_by_node_ok := true;
     mipi_dsi_device_register_full_result := Some (ex_link 0);
     drm_panel_of_backlight_result := 0;
     mipi_dsi_attach_result := fun _ => -19 |}.

(** The detach of the secondary link fails with -EINVAL. *)
Definition ex_detach_secondary_fails (link : nat) : Z :=
  if Nat.eqb link 1 then -22 else 0.

Section Driver.

(** [MIPI_DSI_MODE_LPM] of [drm_mipi_dsi.h], a parameter of the development. *)
Variable MIPI_DSI_MODE_LPM : Z.

(** The environment: what [regulator_enable] on [vregs[idx]] returns, and
    what a transfer on link [link] returns, given everything that happened
    before. *)
Variable regulator_enable_result : list event -> nat -> Z.
Variable dsi_transfer_result : list event -> nat -> dcs_packet -> Z.

(** Modelled from the spec: [regulator_enable] of the regulator core,
    [enable(handle) -> ok | error].  It returns what the environment
    decides; on 0 the regulator has one more enable outstanding. *)
Definition regulator_enable (idx : nat) : M Z :=
  fun w =>
    let r := regulator_enable_result (trace w) idx in
    Ret r (log {| nt := nt w;
                  use_count := if r =? 0 then enable_count (use_count w) idx
                               else use_count w;
                  reset_value := reset_value w; trace := trace w |}
               (EvRegulatorEnable idx)).

(** Modelled from the spec: the transport write,
    [write(endpoint, bytes) -> bytes_written | error].  A transfer on
    [nt->dsi[link]] returns what the environment decides; the transport
    dereferences the handle. *)
Definition dsi_transfer (link : nat) (p : dcs_packet) : M Z :=
  fun w => match get_dsi (nt w) link with
           | None => Oops w
           | Some _ => Ret (dsi_transfer_result (trace w) link p)
                           (log w (EvDsiWrite link p))
           end.

Definition mipi_dsi_dcs_write_buffer (link : nat) (d : list Z) : M Z :=
  dsi_transfer link (Buffer d).

(** [ret = e; if (ret < 0) return ret;] followed by [k]. *)
Definition or_return (e : M Z) (k : M Z) : M Z :=
  r <- e ;; if r <? 0 then ret r else k.

(** [ret = e; if (ret < 0) { dev_err(dev, msg, ret); return ret; }] followed by [k]. *)
Definition or_log_return (e : M Z) (msg : string) (k : M Z) : M Z :=
  r <- e ;; if r <? 0 then (dev_err msg r ;; ret r) else k.

(** [ret = e; if (ret) return ret;] followed by [k]. *)
Definition or_return_nz (e : M Z) (k : M Z) : M Z :=
  r <- e ;; if r =? 0 then k else ret r.

(** The macro [dsi_dcs_write_seq] (lines 63-69), followed by [k]. *)
Definition dsi_dcs_write_seq (link : nat) (seq : list Z) (k : M Z) : M Z :=
  or_return (mipi_dsi_dcs_write_buffer link seq) k.

(** ** The driver functions *)

(** Lines 71-79. *)
Definition nt35950_reset : M unit :=
  gpiod_set_value_cansleep 1 ;;
  usleep_range 12000 13000 ;;
  gpiod_set_value_cansleep 0 ;;
  usleep_range 300 400 ;;
  gpiod_set_value_cansleep 1 ;;
  usleep_range 12000 13000.

(** Lines 88-95. *)
Definition nt35950_set_cmd2_page (page : Z) : M Z :=
  let mauc_cmd2_page := [MCS_CMD_MAUCCTR; 0x55; 0xaa; 0x52; 0x08; u8 page] in
  mipi_dsi_dcs_write_buffer 0 mauc_cmd2_page.

(** Lines 104-110. *)
Definition nt35950_set_data_compression (comp_mode : Z) : M Z :=
  let cmd_data_compression := [MCS_PARAM_DATA_COMPRESSION; u8 comp_mode] in
  mipi_dsi_dcs_write_buffer 0 cmd_data_compression.

(** Lines 119-125. *)
Definition nt35950_set_scaler (scale_up : Z) : M Z :=
  let cmd_scaler := [MCS_PARAM_SCALER_FUNCTION; u8 scale_up] in
  mipi_dsi_dcs_write_buffer 0 cmd_scaler.

(** Lines 127-152. *)
Definition nt35950_inject_black_image : M Z :=
  let cmd0_black_img := [0x6f; 0x01] in
  let cmd1_black_img := [0xf3; 0x10] in
  let cmd_test := [0xff; 0xaa; 0x55; 0xa5; 0x80] in
  or_return (mipi_dsi_dcs_write_buffer 0 cmd_test)
  (or_return (mipi_dsi_dcs_write_buffer 0 cmd0_black_img)
  (or_return (mipi_dsi_dcs_write_buffer 0 cmd1_black_img)
  (let cmd_test := [0xff; 0xaa; 0x55; 0xa5; 0x00] in
   mipi_dsi_dcs_write_buffer 0 cmd_test))).

(** Lines 162-173. *)
Definition nt35950_set_dispout : M Z :=
  d <- read_desc ;;
  let b := 0x00 in
  let b := if is_video_mode d then Z.lor b MCS_DISP_OUT_VIDEO_MODE else b in
  let b := if enable_sram d then Z.lor b MCS_DISP_OUT_SRAM_EN else b in
  mipi_dsi_dcs_write_buffer 0 [MCS_PARAM_DISP_OUTPUT_CTRL; b].

(** Modelled from the spec: the DCS helpers of [drm_mipi_dsi.c], each a
    single fixed encoded command on the given link. *)
Definition mipi_dsi_dcs_set_tear_on (link : nat) (mode : mipi_dsi_dcs_tear_mode) : M Z :=
  dsi_transfer link (SetTearOn mode).
Definition mipi_dsi_dcs_set_tear_scanline (link : nat) (scanline : Z) : M Z :=
  dsi_transfer link (SetTearScanline scanline).
Definition mipi_dsi_dcs_exit_sleep_mode (link : nat) : M Z :=
  dsi_transfer link ExitSleepMode.
Definition mipi_dsi_dcs_set_display_on (link : nat) : M Z :=
  dsi_transfer link SetDisplayOn.
Definition mipi_dsi_dcs_set_display_off (link : nat) : M Z :=
  dsi_transfer link SetDisplayOff.
Definition mipi_dsi_dcs_enter_sleep_mode (link : nat) : M Z :=
  dsi_transfer link EnterSleepMode.

(** [flags |= MIPI_DSI_MODE_LPM] and [flags &= ~MIPI_DSI_MODE_LPM]. *)
Definition lpm_set (f : Z) : Z := Z.lor f MIPI_DSI_MODE_LPM.
Definition lpm_clear (f : Z) : Z := Z.land f (Z.lnot MIPI_DSI_MODE_LPM).

(** Lines 175-257. *)
Definition nt35950_on : M Z :=
  update_mode_flags 0 lpm_set ;;
  update_mode_flags 1 lpm_set ;;
  or_return (nt35950_set_cmd2_page 7)
  (* Enable SubPixel Rendering *)
  (dsi_dcs_write_seq 0 [MCS_PARAM_SPR_EN; 0x01]
  (* SPR Mode: YYG Rainbow-RGB *)
  (dsi_dcs_write_seq 0 [MCS_PARAM_SPR_MODE; 0x01]
  (or_return (nt35950_set_cmd2_page 0)
  (* This is unknown... *)
  (dsi_dcs_write_seq 0 [0xc9; 0x01]
  (or_return (nt35950_set_data_compression MCS_DATA_COMPRESSION_NONE)
  (or_return (nt35950_set_scaler 1)
  (or_return nt35950_set_dispout
  (* Frame rate setting for 60hz *)
  (dsi_dcs_write_seq 0 [0xbd;
                        0x00; 0xac; 0x0c; 0x0c; 0x00;
                        0x01; 0x56; 0x09; 0x09; 0x01;
                        0x01; 0x0c; 0x0c; 0x00; 0xd9]
  (or_log_return (mipi_dsi_dcs_set_tear_on 0 MIPI_DSI_DCS_TEAR_MODE_VBLANK)
                 "Failed to set tear on: %d\n"
  (or_log_return (mipi_dsi_dcs_set_tear_scanline 0 0)
                 "Failed to set tear scanline: %d\n"
  (* CMD2 Page 1 *)
  (or_return (nt35950_set_cmd2_page 1)
  (dsi_dcs_write_seq 0 [0xd4; 0x88; 0x88]
  (* CMD3 *)
  (or_return nt35950_inject_black_image
  (or_return (mipi_dsi_dcs_exit_sleep_mode 0)
  (msleep 120 ;;
   or_return (mipi_dsi_dcs_set_display_on 0)
  (msleep 120 ;;
   update_mode_flags 0 lpm_clear ;;
   update_mode_flags 1 lpm_clear ;;
   ret 0)))))))))))))))).

(** Lines 259-282. *)
Definition nt35950_off : M Z :=
  or_log_return (mipi_dsi_dcs_set_display_off 0)
                "Failed to set display off: %d\n"
  (usleep_range 10000 11000 ;;
   or_log_return (mipi_dsi_dcs_enter_sleep_mode 0)
                 "Failed to enter sleep mode: %d\n"
  (msleep 150 ;;
   update_mode_flags 0 lpm_set ;;
   update_mode_flags 1 lpm_set ;;
   ret 0)).

(** Lines 328-378. *)
Definition nt35950_prepare : M Z :=
  p <- get_prepared ;;
  if p then ret 0 else
  (* vio *)
  or_return_nz (regulator_enable 0)
  (usleep_range 2000 5000 ;;
  (* DVDD *)
   or_return_nz (regulator_enable 5)
  (usleep_range 15000 18000 ;;
  (* vsp/vsn *)
   or_return_nz (regulator_enable 3)
  (or_return_nz (regulator_enable 4)
  (usleep_range 12000 13000 ;;
  (* touch - remove me *)
   or_return_nz (regulator_enable 1)
  (or_return_nz (regulator_enable 2)
  (usleep_range 15000 16000 ;;
   nt35950_reset ;;
   r <- nt35950_on ;;
   if r <? 0 then
     dev_err "Failed to initialize panel: %d\n" r ;;
     regulator_bulk_disable NT35950_VREG_MAX ;;
     ret r
   else
     put_prepared true ;;
     ret 0)))))).

(** Lines 380-398. *)
Definition nt35950_unprepare : M Z :=
  p <- get_prepared ;;
  if negb p then ret 0 else
  r <- nt35950_off ;;
  (if r <? 0 then dev_err "Failed to un-initialize panel: %d\n" r else ret tt) ;;
  gpiod_set_value_cansleep 0 ;;
  regulator_bulk_disable NT35950_VREG_MAX ;;
  put_prepared false ;;
  ret 0.

(** ** Binding the driver *)

(** Error numbers and DSI mode flags of the kernel headers, parameters of the
    development. *)
Variables ENOMEM ENODEV EPROBE_DEFER : Z.
Variables MIPI_DSI_MODE_VIDEO MIPI_DSI_MODE_EOT_PACKET MIPI_DSI_CLOCK_NON_CONTINUOUS : Z.

Variable regs : regulator_env.
Variable env : probe_env.

Definition devm_regulator_bulk_get : M Z :=
  ret (devm_regulator_bulk_get_result regs).

Definition regulator_is_supported_voltage (idx : nat) (min_uV max_uV : Z) : M Z :=
  ret (regulator_is_supported_voltage_result regs idx min_uV max_uV).

(** [ret = e; if (!ret) return ret;] followed by [k]. *)
Definition or_return_z (e : M Z) (k : M Z) : M Z :=
  r <- e ;; if r =? 0 then ret r else k.

(** Lines 285-326. *)
Definition nt35950_sharp_init_vregs : M Z :=
  set_supply 0 "vddio" ;;
  set_supply 1 "tvddio" ;;
  set_supply 2 "tavdd" ;;
  set_supply 3 "avdd" ;;
  set_supply 4 "avee" ;;
  set_supply 5 "dvdd" ;;
  or_log_return devm_regulator_bulk_get "Failed to get regulators: %d\n"
  (or_return_z (regulator_is_supported_voltage 0 1750000 1950000)
  (or_return_z (regulator_is_supported_voltage 1 1750000 1950000)
  (or_return_z (regulator_is_supported_voltage 2 2800000 3300000)
  (or_return_z (regulator_is_supported_voltage 3 5200000 5900000)
  (* AVEE is negative: -5.90V to -5.20V *)
  (or_return_z (regulator_is_supported_voltage 4 5200000 5900000)
  (regulator_is_supported_voltage 5 1300000 1400000)))))).

Definition mipi_dsi_attach (i : nat) : M Z :=
  fun w => match get_dsi (nt w) i with
           | None => Oops w
           | Some _ => Ret (mipi_dsi_attach_result env i) (log w (EvDsiAttach i))
           end.

(** [dev_err_probe]: the message is not an error while probing is deferred. *)
Definition dev_err_probe (err : Z) (msg : string) : M Z :=
  (if err =? - EPROBE_DEFER then ret tt else dev_err msg err) ;;
  ret err.

(** The body of the loop of lines 504-521 for link [i]. *)
Definition configure_link (i : nat) : M unit :=
  d <- read_desc ;;
  update_dsi i (fun l => {| lanes := num_lanes d; format := format l;
                            mode_flags := mode_flags l |}) ;;
  update_dsi i (fun l => {| lanes := lanes l; format := MIPI_DSI_FMT_RGB888;
                            mode_flags := mode_flags l |}) ;;
  update_dsi i (fun l => set_mode_flags l
                  (Z.lor (Z.lor MIPI_DSI_MODE_EOT_PACKET MIPI_DSI_CLOCK_NON_CONTINUOUS)
                         MIPI_DSI_MODE_LPM)) ;;
  d <- read_desc ;;
  if is_video_mode d then
    update_dsi i (fun l => set_mode_flags l (Z.lor (mode_flags l) MIPI_DSI_MODE_VIDEO))
  else ret tt.

(** [for (i = ...; i < n; i++)] with [todo = n - i] rounds left, followed by [k]. *)
Fixpoint attach_links (todo : nat) (i : nat) (k : M Z) : M Z :=
  match todo with
  | O => k
  | S todo' =>
      configure_link i ;;
      or_log_return (mipi_dsi_attach i) "Failed to attach to DSI%d host: %d\n"
      (attach_links todo' (S i) k)
  end.

(** Lines 492-525: what [probe] does once the links are known. *)
Definition probe_finish (dsi : mipi_dsi_device) (n : nat) : M Z :=
  put_dsi 0 (Some dsi) ;;
  r <- ret (drm_panel_of_backlight_result env) ;;
  if negb (r =? 0) then dev_err_probe r "Failed to get backlight\n" else
  emit EvPanelAdd ;;
  attach_links n 0
  ((* Make sure that before the power sequence starts RESX is LOW *)
   gpiod_set_value_cansleep 0 ;;
   ret 0).

(** Lines 441-526. *)
Definition nt35950_probe (dsi : mipi_dsi_device) : M Z :=
  if negb (devm_kzalloc_ok env) then ret (- ENOMEM) else
  devm_kzalloc ;;
  r <- nt35950_sharp_init_vregs ;;
  (if negb (r =? 0) && negb (r =? - EPROBE_DEFER) then
     dev_err "Regulator init failure: %d -- NO FAILURE: DEVELOPMENT MODE\n" r
   else ret tt) ;;
  put_desc (of_device_get_match_data_result env) ;;
  match of_device_get_match_data_result env with
  | None => ret (- ENODEV)
  | Some d =>
    match devm_gpiod_get_result env with
    | GpiodErr code =>
        dev_err "Failed to get reset-gpios: %d\n" code ;;
        ret code
    | GpiodDesc =>
        put_reset_gpio ;;
        (* If the panel is connected on two DSIs then DSI0 left, DSI1 right *)
        if is_dual_dsi d then
          if negb (of_graph_get_remote_node_ok env) then
            dev_err "Cannot get secondary DSI node.\n" 0 ;;
            ret (- ENODEV)
          else if negb (of_find_mipi_dsi_host_by_node_ok env) then
            dev_err "Cannot get secondary DSI host\n" 0 ;;
            ret (- EPROBE_DEFER)
          else
            put_dsi 1 (mipi_dsi_device_register_full_result env) ;;
            match mipi_dsi_device_register_full_result env with
            | None =>
                dev_err "Cannot get secondary DSI node\n" 0 ;;
                ret (- ENODEV)
            | Some _ => probe_finish dsi 2
            end
        else probe_finish dsi 1
    end
  end.

(** The masked low-power-mode bits of a link. *)
Definition lpm_flag (l : mipi_dsi_device) : Z :=
  Z.land (mode_flags l) MIPI_DSI_MODE_LPM.

(** Lines 369-377, what [prepare] does after the reset pulse. *)
Definition prepare_script : M Z :=
  r <- nt35950_on ;;
  if r <? 0 then
    dev_err "Failed to initialize panel: %d\n" r ;;
    regulator_bulk_disable NT35950_VREG_MAX ;;
    ret r
  else
    put_prepared true ;;
    ret 0.

(** The worlds the panel can be in: it starts unprepared (probe leaves the
    zeroed [prepared] alone), and changes by calls of the two panel
    functions that return. *)
Inductive reachable : world -> Prop :=
| reach_unprepared (w : world) :
    prepared (nt w) = false -> reachable w
| reach_prepare (w : world) (r : Z) (w' : world) :
    reachable w -> nt35950_prepare w = Ret r w' -> reachable w'
| reach_unprepare (w : world) (r : Z) (w' : world) :
    reachable w -> nt35950_unprepare w = Ret r w' -> reachable w'.

(** The events of a command script: transfers, waits and log lines. *)
Definition script_event (e : event) : Prop :=
  match e with
  | EvDsiWrite _ _ | EvUsleepRange _ _ | EvMsleep _ | EvDevErr _ _ => True
  | _ => False
  end.

(** A regulator enable or a write to the reset line. *)
Definition power_on_event (e : event) : Prop :=
  match e with
  | EvRegulatorEnable _ | EvGpioSet _ => True
  | _ => False
  end.

Definition present {A : Type} (o : option A) : bool :=
  match o with
  | Some _ => true
  | None => false
  end.

(** What a command script may change: it appends script events to the trace
    and rewrites the mode flags of links that exist; power, reset,
    [prepared], the descriptor and the set of links stay. *)
Record script_rel (w w' : world) : Prop := {
  sr_trace : exists rest, trace w' = trace w ++ rest /\ Forall script_event rest;
  sr_reset : reset_value w' = reset_value w;
  sr_count : use_count w' = use_count w;
  sr_prepared : prepared (nt w') = prepared (nt w);
  sr_desc : desc (nt w') = desc (nt w);
  sr_dsi0 : present (dsi0 (nt w')) = present (dsi0 (nt w));
  sr_dsi1 : present (dsi1 (nt w')) = present (dsi1 (nt w))
}.

(** A missing secondary link stays missing. *)
Definition no_secondary_rel (w w' : world) : Prop :=
  dsi1 (nt w) = None -> dsi1 (nt w') = None.

(** [m] moves every world along [R], whether it returns or faults. *)
Definition respects {A : Type} (R : world -> world -> Prop) (m : M A) : Prop :=
  forall w, R w (final (m w)).

(** ** Vocabulary of the further properties *)

(** An event that is not a transfer on the secondary link. *)
Definition link0_event (e : event) : Prop :=
  match e with
  | EvDsiWrite l _ => l = 0%nat
  | _ => True
  end.

(** The trace grows, by nothing that goes over the secondary link. *)
Definition primary_only_rel (w w' : world) : Prop :=
  exists rest, trace w' = trace w ++ rest /\ Forall link0_event rest.


(** [m] never returns a positive value. *)
Definition returns_nonpos (m : M Z) : Prop :=
  forall w r w', m w = Ret r w' -> r <= 0.


(** [m] leaves the driver structure alone; [m] leaves it alone when it
    returns an error. *)
Definition keeps_nt {A : Type} (m : M A) : Prop :=
  forall w a w', m w = Ret a w' -> nt w' = nt w.

Definition keeps_nt_on_error (m : M Z) : Prop :=
  forall w r w', m w = Ret r w' -> r < 0 -> nt w' = nt w.

(** The use counts after the regulator enables of a trace, all successful. *)
Fixpoint enabled_by (t : list event) (c : nat -> nat) : nat -> nat :=
  match t with
  | [] => c
  | EvRegulatorEnable idx :: t' => enabled_by t' (enable_count c idx)
  | _ :: t' => enabled_by t' c
  end.

(** The mode flags the loop of [probe] gives a link (lines 508-513). *)
Definition probe_mode_flags (d : nt35950_panel_desc) : Z :=
  let f := Z.lor (Z.lor MIPI_DSI_MODE_EOT_PACKET MIPI_DSI_CLOCK_NON_CONTINUOUS)
                 MIPI_DSI_MODE_LPM in
  if is_video_mode d then Z.lor f MIPI_DSI_MODE_VIDEO else f.

(** ** Unbinding the driver *)

(** The calls [remove] makes, in order. *)
Inductive remove_call : Type :=
| RmDetach (link : nat)                 (* mipi_dsi_detach(nt->dsi[link]) *)
| RmDevErr (msg : string) (code : Z)    (* dev_err *)
| RmUnregister (link : nat)             (* mipi_dsi_device_unregister(nt->dsi[link]) *)
| RmPanelRemove.                        (* drm_panel_remove *)

(** Lines 528-549.  [remove] reads the two link pointers of the driver
    structure and changes nothing in it; the result is what it returns with
    the calls it made, [None] when it hands a NULL [dsi[0]] to
    [mipi_dsi_detach].  [detach_result] is what the DSI host answers to a
    detach of each link. *)
Definition nt35950_remove (detach_result : nat -> Z) (p : nt35950)
  : option (Z * list remove_call) :=
  match dsi0 p with
  | None => None
  | Some _ =>
      let r := detach_result 0%nat in
      let calls := [RmDetach 0] ++
        (if r <? 0 then [RmDevErr "Failed to detach from DSI0 host: %d\n" r] else []) in
      let calls :=
        match dsi1 p with
        | Some _ =>
            let r := detach_result 1%nat in
            calls ++ [RmDetach 1] ++
              (if r <? 0 then [RmDevErr "Failed to detach from DSI1 host: %d\n" r] else []) ++
              [RmUnregister 1]
        | None => calls
        end in
      Some (0, calls ++ [RmPanelRemove])
  end.

(** ** Properties *)

(** *** The monad *)

Lemma bind_ret_inv {A B : Type} (m : M A) (f : A -> M B) w b w' :
  bind m f w = Ret b w' ->
  exists a w1, m w = Ret a w1 /\ f a w1 = Ret b w'.
Proof.
  unfold bind. destruct (m w) as [a w1|w1]; [|discriminate].
  intros H. exists a, w1. split; [reflexivity|exact H].
Qed.

Lemma or_return_inv (e k : M Z) w r w' :
  or_return e k w = Ret r w' ->
  0 <= r ->
  exists r1 w1, e w = Ret r1 w1 /\ 0 <= r1 /\ k w1 = Ret r w'.
Proof.
  unfold or_return. intros H Hr.
  apply bind_ret_inv in H. destruct H as (r1 & w1 & He & H).
  exists r1, w1. destruct (Z.ltb_spec r1 0) as [Hneg|Hpos].
  - unfold ret in H. injection H as -> _. lia.
  - auto.
Qed.

Lemma or_log_return_inv (e k : M Z) msg w r w' :
  or_log_return e msg k w = Ret r w' ->
  0 <= r ->
  exists r1 w1, e w = Ret r1 w1 /\ 0 <= r1 /\ k w1 = Ret r w'.
Proof.
  unfold or_log_return. intros H Hr.
  apply bind_ret_inv in H. destruct H as (r1 & w1 & He & H).
  exists r1, w1. destruct (Z.ltb_spec r1 0) as [Hneg|Hpos].
  - unfold bind, dev_err, emit, ret in H. injection H as -> _. lia.
  - auto.
Qed.

Lemma dsi_transfer_inv link p w r w' :
  dsi_transfer link p w = Ret r w' ->
  get_dsi (nt w) link <> None /\
  nt w' = nt w /\ trace w' = trace w ++ [EvDsiWrite link p].
Proof.
  unfold dsi_transfer. destruct (get_dsi (nt w) link); [|discriminate].
  intros H. injection H as _ <-. repeat split. discriminate.
Qed.

Lemma update_mode_flags_inv i f w u w' :
  update_mode_flags i f w = Ret u w' ->
  exists l, get_dsi (nt w) i = Some l /\
            nt w' = set_dsi (nt w) i (Some (set_mode_flags l (f (mode_flags l)))) /\
            trace w' = trace w.
Proof.
  unfold update_mode_flags. destruct (get_dsi (nt w) i) as [l|]; [|discriminate].
  intros H. injection H as _ <-. exists l. repeat split.
Qed.

(** *** Scripts keep power, reset and the shape of the driver structure *)

Lemma script_rel_refl w : script_rel w w.
Proof.
  constructor; try reflexivity. exists []. split; [now rewrite app_nil_r|constructor].
Qed.

Lemma script_rel_trans w1 w2 w3 :
  script_rel w1 w2 -> script_rel w2 w3 -> script_rel w1 w3.
Proof.
  intros [(t1 & H1 & F1) ? ? ? ? ? ?] [(t2 & H2 & F2) ? ? ? ? ? ?].
  constructor; try congruence.
  exists (t1 ++ t2). split; [|apply Forall_app; auto].
  rewrite H2, H1. now rewrite app_assoc.
Qed.

Lemma script_rel_log w e : script_event e -> script_rel w (log w e).
Proof.
  intros He. constructor; try reflexivity. exists [e]. split; [reflexivity|].
  constructor; [exact He|constructor].
Qed.

(** Rules for any reflexive and transitive relation on worlds. *)
Section Respects.

Variable R : world -> world -> Prop.
Hypothesis R_refl : forall w, R w w.
Hypothesis R_trans : forall w1 w2 w3, R w1 w2 -> R w2 w3 -> R w1 w3.

Lemma respects_ret {A : Type} (a : A) : respects R (ret a).
Proof. intros w. apply R_refl. Qed.

Lemma respects_bind {A B : Type} (m : M A) (f : A -> M B) :
  respects R m ->
  (forall a, respects R (f a)) ->
  respects R (bind m f).
Proof.
  intros Hm Hf w. unfold bind. specialize (Hm w).
  destruct (m w) as [a w1|w1]; simpl in Hm.
  - eapply R_trans; [exact Hm|apply Hf].
  - exact Hm.
Qed.

Lemma respects_if {A : Type} (b : bool) (m1 m2 : M A) :
  respects R m1 -> respects R m2 ->
  respects R (if b then m1 else m2).
Proof. destruct b; auto. Qed.

End Respects.

Lemma respects_emit e : script_event e -> respects script_rel (emit e).
Proof. intros He w. apply script_rel_log. exact He. Qed.

Lemma respects_update_mode_flags i f : respects script_rel (update_mode_flags i f).
Proof.
  intros w. unfold update_mode_flags.
  destruct (get_dsi (nt w) i) as [l|] eqn:E; simpl; [|apply script_rel_refl].
  constructor; simpl; try reflexivity.
  - exists []. split; [now rewrite app_nil_r|constructor].
  - destruct i; reflexivity.
  - destruct i; reflexivity.
  - destruct i; simpl in *; [now rewrite E|reflexivity].
  - destruct i; simpl in *; [reflexivity|now rewrite E].
Qed.

Lemma respects_read_desc : respects script_rel read_desc.
Proof. intros w. unfold read_desc. destruct (desc (nt w)); apply script_rel_refl. Qed.

Lemma respects_dsi_transfer link p : respects script_rel (dsi_transfer link p).
Proof.
  intros w. unfold dsi_transfer.
  destruct (get_dsi (nt w) link); simpl;
    [apply script_rel_log; exact I|apply script_rel_refl].
Qed.

Create HintDb script discriminated.
#[local] Hint Resolve respects_emit respects_update_mode_flags
  respects_read_desc respects_dsi_transfer : script.
#[local] Hint Extern 1 (script_event _) => exact I : script.
#[local] Hint Extern 1 (respects script_rel (ret _)) =>
  apply (respects_ret script_rel script_rel_refl) : script.
#[local] Hint Extern 1 (respects script_rel (bind _ _)) =>
  apply (respects_bind script_rel script_rel_trans); [|intros ?] : script.
#[local] Hint Extern 1 (respects script_rel (if _ then _ else _)) =>
  apply respects_if : script.
#[local] Hint Unfold or_return or_log_return dsi_dcs_write_seq
  mipi_dsi_dcs_write_buffer usleep_range msleep dev_err
  nt35950_set_cmd2_page nt35950_set_data_compression nt35950_set_scaler
  nt35950_inject_black_image nt35950_set_dispout
  mipi_dsi_dcs_set_tear_on mipi_dsi_dcs_set_tear_scanline
  mipi_dsi_dcs_exit_sleep_mode mipi_dsi_dcs_set_display_on
  mipi_dsi_dcs_set_display_off mipi_dsi_dcs_enter_sleep_mode : script.

Lemma nt35950_on_respects : respects script_rel nt35950_on.
Proof. unfold nt35950_on. autounfold with script. auto 50 with script. Qed.

Lemma nt35950_off_respects : respects script_rel nt35950_off.
Proof. unfold nt35950_off. autounfold with script. auto 20 with script. Qed.


(** *** The low-power-mode bit *)

Lemma lpm_set_flag f : Z.land (lpm_set f) MIPI_DSI_MODE_LPM = MIPI_DSI_MODE_LPM.
Proof.
  unfold lpm_set. apply Z.bits_inj'. intros n Hn.
  rewrite Z.land_spec, Z.lor_spec.
  destruct (Z.testbit f n), (Z.testbit MIPI_DSI_MODE_LPM n); reflexivity.
Qed.

Lemma lpm_clear_flag f : Z.land (lpm_clear f) MIPI_DSI_MODE_LPM = 0.
Proof.
  unfold lpm_clear. apply Z.bits_inj'. intros n Hn.
  rewrite !Z.land_spec, Z.lnot_spec, Z.bits_0 by assumption.
  destruct (Z.testbit f n), (Z.testbit MIPI_DSI_MODE_LPM n); reflexivity.
Qed.

(** Outside the mask, setting and clearing the bit change nothing. *)
Lemma lpm_set_others f :
  Z.land (lpm_set f) (Z.lnot MIPI_DSI_MODE_LPM) = Z.land f (Z.lnot MIPI_DSI_MODE_LPM).
Proof.
  unfold lpm_set. apply Z.bits_inj'. intros n Hn.
  rewrite !Z.land_spec, Z.lor_spec, Z.lnot_spec by assumption.
  destruct (Z.testbit f n), (Z.testbit MIPI_DSI_MODE_LPM n); reflexivity.
Qed.

Lemma lpm_clear_others f :
  Z.land (lpm_clear f) (Z.lnot MIPI_DSI_MODE_LPM) = Z.land f (Z.lnot MIPI_DSI_MODE_LPM).
Proof.
  unfold lpm_clear. apply Z.bits_inj'. intros n Hn.
  rewrite !Z.land_spec, Z.lnot_spec by assumption.
  destruct (Z.testbit f n), (Z.testbit MIPI_DSI_MODE_LPM n); reflexivity.
Qed.

(** *** Inversion of a script that returned a non-negative value *)

(** Projections of an explicitly updated world. *)
Ltac world_simpl :=
  cbn [trace nt use_count reset_value log set_nt set_dsi get_dsi set_prepared
       set_mode_flags dsi0 dsi1 vregs reset_gpio desc prepared
       lanes format mode_flags final].
Tactic Notation "world_simpl" "in" hyp(H) :=
  cbn [trace nt use_count reset_value log set_nt set_dsi get_dsi set_prepared
       set_mode_flags dsi0 dsi1 vregs reset_gpio desc prepared
       lanes format mode_flags final] in H.

Lemma emit_inv e w u w' :
  emit e w = Ret u w' -> nt w' = nt w /\ trace w' = trace w ++ [e].
Proof. unfold emit. intros H. injection H as _ <-. split; reflexivity. Qed.

Lemma read_desc_inv w d w' :
  read_desc w = Ret d w' -> desc (nt w) = Some d /\ w' = w.
Proof.
  unfold read_desc. destruct (desc (nt w)); [|discriminate].
  intros H. injection H as <- <-. auto.
Qed.

Ltac invert_write He Hn Ht :=
  unfold nt35950_set_cmd2_page, nt35950_set_data_compression, nt35950_set_scaler,
    mipi_dsi_dcs_write_buffer, mipi_dsi_dcs_set_tear_on,
    mipi_dsi_dcs_set_tear_scanline, mipi_dsi_dcs_exit_sleep_mode,
    mipi_dsi_dcs_set_display_on, mipi_dsi_dcs_set_display_off,
    mipi_dsi_dcs_enter_sleep_mode in He;
  apply dsi_transfer_inv in He; destruct He as (_ & Hn & Ht).

(** One guarded transfer of a script that went on: the world after it has
    the same driver structure and one more event. *)
Ltac script_write H :=
  let r := fresh "r" in
  let w := fresh "w" in
  let He := fresh "He" in
  let Hr := fresh "Hr" in
  let Hn := fresh "Hn" in
  let Ht := fresh "Ht" in
  first [ apply or_return_inv in H; [|lia]
        | apply or_log_return_inv in H; [|lia] ];
  destruct H as (r & w & He & Hr & H);
  invert_write He Hn Ht.

Ltac script_sleep H :=
  let u := fresh "u" in
  let w := fresh "w" in
  let He := fresh "He" in
  let Hn := fresh "Hn" in
  let Ht := fresh "Ht" in
  apply bind_ret_inv in H; destruct H as (u & w & He & H);
  apply emit_inv in He; destruct He as (Hn & Ht).

Ltac script_flags H l Hl :=
  let u := fresh "u" in
  let w := fresh "w" in
  let He := fresh "He" in
  let Hn := fresh "Hn" in
  let Ht := fresh "Ht" in
  apply bind_ret_inv in H; destruct H as (u & w & He & H);
  apply update_mode_flags_inv in He; destruct He as (l & Hl & Hn & Ht).

(** Bring a fact about a later world back to the first one. *)
Ltac rewind :=
  repeat match goal with
         | Ht : trace ?x = _ |- context [trace ?x] => rewrite Ht
         | Hn : nt ?x = _ |- context [nt ?x] => rewrite Hn
         end.
Tactic Notation "rewind" "in" hyp(H) :=
  repeat match type of H with
         | context [nt ?x] =>
             match goal with Hn : nt x = _ |- _ => rewrite Hn in H end
         end.

Lemma nt35950_inject_black_image_inv w r w' :
  nt35950_inject_black_image w = Ret r w' ->
  0 <= r ->
  nt w' = nt w /\
  trace w' = trace w ++
    [ EvDsiWrite 0 (Buffer [0xff; 0xaa; 0x55; 0xa5; 0x80]);
      EvDsiWrite 0 (Buffer [0x6f; 0x01]);
      EvDsiWrite 0 (Buffer [0xf3; 0x10]);
      EvDsiWrite 0 (Buffer [0xff; 0xaa; 0x55; 0xa5; 0x00]) ].
Proof.
  unfold nt35950_inject_black_image. intros H Hpos.
  script_write H. script_write H. script_write H.
  invert_write H Hn2 Ht2.
  split; rewind; [reflexivity|].
  rewrite <- !app_assoc. reflexivity.
Qed.

Lemma nt35950_set_dispout_inv w r w' :
  nt35950_set_dispout w = Ret r w' ->
  exists d, desc (nt w) = Some d /\
            nt w' = nt w /\
            trace w' = trace w ++ [EvDsiWrite 0 (Buffer [0xb4; dispout_byte d])].
Proof.
  unfold nt35950_set_dispout. intros H.
  apply bind_ret_inv in H. destruct H as (d & w1 & Hd & H).
  apply read_desc_inv in Hd. destruct Hd as [Hd ->].
  invert_write H Hn Ht. exists d. split; [exact Hd|]. split; [exact Hn|].
  rewrite Ht. destruct d as [? ? [] [] ?]; reflexivity.
Qed.

(** C9: for a page number 0..7, on a bound panel, selecting the page is one
    transfer, on link 0, of the six bytes F0 55 AA 52 08 page; nothing else
    changes, and the result of the transfer is returned. *)
Theorem nt35950_set_cmd2_page_one_write (page : Z) (w : world) :
  0 <= page <= 7 ->
  dsi0 (nt w) <> None ->
  let seq := Buffer [0xF0; 0x55; 0xAA; 0x52; 0x08; page] in
  nt35950_set_cmd2_page page w =
    Ret (dsi_transfer_result (trace w) 0%nat seq) (log w (EvDsiWrite 0 seq))
  /\ trace (log w (EvDsiWrite 0 seq)) = trace w ++ [EvDsiWrite 0 seq].
Proof.
  intros Hpage Hlink seq.
  unfold nt35950_set_cmd2_page, mipi_dsi_dcs_write_buffer, dsi_transfer.
  simpl get_dsi.
  destruct (dsi0 (nt w)) as [l|]; [|congruence].
  unfold u8. rewrite Z.mod_small by lia.
  split; reflexivity.
Qed.

Lemma prepare_when_prepared (w : world) r w' :
  prepared (nt w) = true -> nt35950_prepare w = Ret r w' -> r = 0 /\ w' = w.
Proof.
  intros H. unfold nt35950_prepare, bind, get_prepared. rewrite H.
  unfold ret. intros E. injection E as <- <-. auto.
Qed.

(** C4: [prepare] on a prepared panel and [unprepare] on an unprepared one
    return 0 and leave the whole world as it was: no transfer, no regulator
    or reset operation, no change of state. *)
Theorem prepare_unprepare_idempotent (w : world) :
  (prepared (nt w) = true -> nt35950_prepare w = Ret 0 w) /\
  (prepared (nt w) = false -> nt35950_unprepare w = Ret 0 w).
Proof.
  split; intros H.
  - unfold nt35950_prepare, bind, get_prepared. rewrite H. reflexivity.
  - unfold nt35950_unprepare, bind, get_prepared. rewrite H. reflexivity.
Qed.

(** *** The on-script and the off-script, when they return 0 *)

Lemma nt35950_on_ret0 (w w' : world) :
  nt35950_on w = Ret 0 w' ->
  exists d l0 l1,
    desc (nt w) = Some d /\
    dsi0 (nt w) = Some l0 /\ dsi1 (nt w) = Some l1 /\
    trace w' = trace w ++ on_script_events d /\
    dsi0 (nt w') = Some (set_mode_flags l0 (lpm_clear (lpm_set (mode_flags l0)))) /\
    dsi1 (nt w') = Some (set_mode_flags l1 (lpm_clear (lpm_set (mode_flags l1)))).
Proof.
  unfold nt35950_on, dsi_dcs_write_seq. intros H.
  script_flags H l0 Hl0. script_flags H l1 Hl1.
  do 7 script_write H.
  apply or_return_inv in H; [|lia]. destruct H as (rd & wd & Hd & _ & H).
  apply nt35950_set_dispout_inv in Hd. destruct Hd as (d & Hd & Hnd & Htd).
  do 5 script_write H.
  apply or_return_inv in H; [|lia]. destruct H as (rb & wb & Hb & Hrb & H).
  apply nt35950_inject_black_image_inv in Hb; [|exact Hrb].
  destruct Hb as (Hnb & Htb).
  script_write H. script_sleep H.
  script_write H. script_sleep H.
  script_flags H l2 Hl2. script_flags H l3 Hl3.
  unfold ret in H. injection H as <-.
  rewind in Hl1. rewind in Hd. rewind in Hl2. rewind in Hl3.
  cbn [get_dsi set_dsi dsi0 dsi1 desc] in Hl0, Hl1, Hd, Hl2, Hl3.
  injection Hl2 as <-. injection Hl3 as <-.
  exists d, l0, l1.
  split; [exact Hd|]. split; [exact Hl0|]. split; [exact Hl1|].
  split; [rewind; rewrite <- !app_assoc; reflexivity|].
  rewind. cbn [get_dsi set_dsi dsi0 dsi1 set_mode_flags mode_flags].
  split; reflexivity.
Qed.

Lemma nt35950_off_ret0 (w w' : world) :
  nt35950_off w = Ret 0 w' ->
  exists l0 l1,
    dsi0 (nt w) = Some l0 /\ dsi1 (nt w) = Some l1 /\
    trace w' = trace w ++ [ EvDsiWrite 0 SetDisplayOff; EvUsleepRange 10000 11000;
                            EvDsiWrite 0 EnterSleepMode; EvMsleep 150 ] /\
    dsi0 (nt w') = Some (set_mode_flags l0 (lpm_set (mode_flags l0))) /\
    dsi1 (nt w') = Some (set_mode_flags l1 (lpm_set (mode_flags l1))).
Proof.
  unfold nt35950_off. intros H.
  script_write H. unfold usleep_range in H. script_sleep H.
  script_write H. unfold msleep in H. script_sleep H.
  script_flags H l0 Hl0. script_flags H l1 Hl1.
  unfold ret in H. injection H as <-.
  rewind in Hl0. rewind in Hl1.
  cbn [get_dsi set_dsi dsi0 dsi1] in Hl0, Hl1.
  exists l0, l1.
  split; [exact Hl0|]. split; [exact Hl1|].
  split; [rewind; rewrite <- !app_assoc; reflexivity|].
  rewind. cbn [get_dsi set_dsi dsi0 dsi1].
  split; reflexivity.
Qed.

(** *** [prepare]: the rails, then the script *)

Ltac rail_step :=
  match goal with
  | |- context [regulator_enable_result ?t ?i =? 0] =>
      let E := fresh "E" in
      destruct (Z.eqb_spec (regulator_enable_result t i) 0) as [E|E];
      cbn [log nt use_count reset_value trace];
      [ | left; do 2 eexists; split; [reflexivity|];
          repeat split; [exact E | do 2 eexists; reflexivity] ]
  end.

(** Either a rail refused and [prepare] returned its error on the spot, or
    the six rails are up, the reset pulse is done, and the script runs. *)
Lemma nt35950_prepare_cases (w : world) :
  prepared (nt w) = false ->
  (exists r w', nt35950_prepare w = Ret r w' /\ r <> 0 /\ nt w' = nt w /\
                reset_value w' = reset_value w /\
                exists t i, r = regulator_enable_result t i)
  \/ nt35950_prepare w = prepare_script (powered_up w).
Proof.
  intros Hp.
  unfold nt35950_prepare, get_prepared, or_return_nz, regulator_enable,
    nt35950_reset, gpiod_set_value_cansleep, usleep_range, emit, bind, ret.
  rewrite Hp. cbn [log nt use_count reset_value trace].
  do 6 rail_step.
  right. unfold prepare_script, bind, ret.
  cbn [log nt use_count reset_value trace].
  match goal with
  | |- context [nt35950_on ?W] => replace W with (powered_up w)
  end; [reflexivity|].
  unfold powered_up, power_up_events, reset_pulse_events, log.
  cbn [nt use_count reset_value trace].
  f_equal. rewrite <- !app_assoc. reflexivity.
Qed.

Lemma nt35950_on_links (w : world) r w' :
  nt35950_on w = Ret r w' ->
  present (dsi0 (nt w)) = true /\ present (dsi1 (nt w)) = true.
Proof.
  unfold nt35950_on. intros H.
  script_flags H l0 Hl0. script_flags H l1 Hl1.
  rewind in Hl1. cbn [get_dsi set_dsi dsi0 dsi1] in Hl0, Hl1.
  rewrite Hl0, Hl1. split; reflexivity.
Qed.

(** What the script part of [prepare] returns: a negative error of the
    on-script after the bulk disable, with [prepared] untouched, or 0 with
    [prepared] set and both links there. *)
Lemma prepare_script_ret (w : world) r w' :
  prepare_script w = Ret r w' ->
  (r < 0 /\ prepared (nt w') = prepared (nt w) /\
   use_count w' = bulk_disable_count (use_count w) NT35950_VREG_MAX /\
   exists rest, trace w' = trace w ++ rest ++ [EvRegulatorBulkDisable NT35950_VREG_MAX])
  \/
  (r = 0 /\ prepared (nt w') = true /\ use_count w' = use_count w /\
   present (dsi0 (nt w')) = true /\ present (dsi1 (nt w')) = true).
Proof.
  unfold prepare_script. intros H.
  apply bind_ret_inv in H. destruct H as (r1 & w1 & Hon & H).
  pose proof (nt35950_on_links _ _ _ Hon) as [Hl0 Hl1].
  pose proof (nt35950_on_respects w) as Hrel. rewrite Hon in Hrel.
  cbn [final] in Hrel.
  destruct Hrel as [(rest & Ht & _) Hreset Hcount Hprep _ Hd0 Hd1].
  destruct (Z.ltb_spec r1 0) as [Hneg|Hpos].
  - left. unfold bind, dev_err, emit, regulator_bulk_disable, ret in H.
    injection H as <- <-. cbn [log nt use_count reset_value trace].
    split; [exact Hneg|]. split; [exact Hprep|]. split; [now rewrite Hcount|].
    exists (rest ++ [EvDevErr "Failed to initialize panel: %d\n" r1]).
    rewrite Ht, <- !app_assoc. reflexivity.
  - right. unfold bind, put_prepared, ret in H.
    injection H as <- <-. cbn [set_nt set_prepared nt use_count prepared dsi0 dsi1].
    rewrite Hd0, Hd1. auto.
Qed.

Lemma script_event_not_power_on (l : list event) :
  Forall script_event l -> Forall (fun e => ~ power_on_event e) l.
Proof.
  apply Forall_impl. intros [] H; cbn in *; tauto.
Qed.

(** The world in which the script part of [prepare] ends, returning or not:
    the trace has grown, by no regulator enable and no write to the reset
    line, and the reset line is where it was. *)
Lemma prepare_script_final (w : world) :
  exists rest,
    trace (final (prepare_script w)) = trace w ++ rest /\
    Forall (fun e => ~ power_on_event e) rest /\
    reset_value (final (prepare_script w)) = reset_value w.
Proof.
  unfold prepare_script, bind.
  pose proof (nt35950_on_respects w) as Hrel.
  destruct (nt35950_on w) as [r w1|w1]; cbn [final] in *;
    destruct Hrel as [(rest & Ht & Hf) Hreset _ _ _ _ _];
    apply script_event_not_power_on in Hf.
  - destruct (r <? 0);
      unfold dev_err, emit, regulator_bulk_disable, put_prepared, ret;
      cbn [final log set_nt nt use_count reset_value trace]; rewrite Ht.
    + exists (rest ++ [EvDevErr "Failed to initialize panel: %d\n" r;
                       EvRegulatorBulkDisable NT35950_VREG_MAX]).
      split; [rewrite <- !app_assoc; reflexivity|]. split; [|exact Hreset].
      apply Forall_app. split; [exact Hf|].
      repeat constructor; cbn; tauto.
    + exists rest. auto.
  - exists rest. auto.
Qed.

(** The true half of C1: when the six rails came up and the on-script
    failed, [prepare] returns the error of the script with every regulator
    back at the use count it had before the call, and [prepared] false. *)
Lemma nt35950_prepare_script_failure (w : world) r w' :
  prepared (nt w) = false ->
  nt35950_prepare w = prepare_script (powered_up w) ->
  nt35950_prepare w = Ret r w' ->
  r <> 0 ->
  r < 0 /\ prepared (nt w') = false /\
  (forall i, use_count w' i = use_count w i) /\
  exists rest, trace w' = trace w ++ rest ++ [EvRegulatorBulkDisable NT35950_VREG_MAX].
Proof.
  intros Hp Hup Hret Hr. rewrite Hup in Hret.
  apply prepare_script_ret in Hret.
  destruct Hret as [(Hneg & Hprep & Hcount & rest & Ht)|(H0 & _)]; [|contradiction].
  split; [exact Hneg|]. split; [now rewrite Hprep|]. split.
  - intros i. rewrite Hcount. unfold powered_up. cbn [use_count].
    unfold bulk_disable_count, enable_count, NT35950_VREG_MAX.
    do 6 (destruct i as [|i]; [reflexivity|]). reflexivity.
  - exists (power_up_events ++ reset_pulse_events ++ rest).
    rewrite Ht. unfold powered_up. cbn [trace]. rewrite <- !app_assoc. reflexivity.
Qed.

(** *** The invariant of the lifecycle *)

Lemma nt35950_prepare_keeps_links (w : world) r w' :
  nt35950_prepare w = Ret r w' ->
  (prepared (nt w) = true ->
   present (dsi0 (nt w)) = true /\ present (dsi1 (nt w)) = true) ->
  prepared (nt w') = true ->
  present (dsi0 (nt w')) = true /\ present (dsi1 (nt w')) = true.
Proof.
  intros Hret Hinv Hp'.
  destruct (prepared (nt w)) eqn:Hp.
  - destruct (prepare_when_prepared w r w' Hp Hret) as [_ ->]. auto.
  - destruct (nt35950_prepare_cases w Hp) as [(r1 & w1 & H1 & _ & Hnt & _)|Hup].
    + rewrite H1 in Hret. injection Hret as <- <-. congruence.
    + rewrite Hup in Hret. apply prepare_script_ret in Hret.
      destruct Hret as [(_ & Hprep & _)|(_ & _ & _ & H0 & H1)]; [|auto].
      unfold powered_up in Hprep. cbn [nt] in Hprep. congruence.
Qed.

Lemma nt35950_off_returns (w : world) :
  present (dsi0 (nt w)) = true ->
  present (dsi1 (nt w)) = true ->
  exists r w1, nt35950_off w = Ret r w1.
Proof.
  destruct w as [[[l0|] [l1|] v g ds pr] uc rv tr]; cbn [nt dsi0 dsi1 present];
    try discriminate.
  intros _ _.
  unfold nt35950_off, or_log_return, mipi_dsi_dcs_set_display_off,
    mipi_dsi_dcs_enter_sleep_mode, dsi_transfer, update_mode_flags,
    usleep_range, msleep, dev_err, emit, bind, ret.
  cbn [log set_nt set_dsi nt use_count reset_value trace get_dsi dsi0 dsi1].
  destruct (_ <? 0); [eauto|].
  cbn [log set_nt set_dsi nt use_count reset_value trace get_dsi dsi0 dsi1].
  destruct (_ <? 0);
    cbn [log set_nt set_dsi nt use_count reset_value trace get_dsi dsi0 dsi1];
    eauto.
Qed.

Lemma unprepare_when_unprepared (w : world) r w' :
  prepared (nt w) = false -> nt35950_unprepare w = Ret r w' -> r = 0 /\ w' = w.
Proof.
  intros H. unfold nt35950_unprepare, bind, get_prepared. rewrite H.
  unfold ret. intros E. injection E as <- <-. auto.
Qed.

(** [unprepare] on a prepared panel with both links: whatever the off-script
    returned, the reset line is written 0 and the six regulators are bulk
    disabled, last of all, [prepared] is cleared, and 0 is returned. *)
Lemma nt35950_unprepare_prepared (w : world) :
  prepared (nt w) = true ->
  present (dsi0 (nt w)) = true ->
  present (dsi1 (nt w)) = true ->
  exists w' script,
    nt35950_unprepare w = Ret 0 w' /\
    trace w' = trace w ++ script ++
                 [EvGpioSet 0; EvRegulatorBulkDisable NT35950_VREG_MAX] /\
    Forall script_event script /\
    reset_value w' = 0 /\
    use_count w' = bulk_disable_count (use_count w) NT35950_VREG_MAX /\
    prepared (nt w') = false.
Proof.
  intros Hp H0 H1.
  destruct (nt35950_off_returns w H0 H1) as (r & w1 & Hoff).
  pose proof (nt35950_off_respects w) as Hrel. rewrite Hoff in Hrel.
  cbn [final] in Hrel. destruct Hrel as [(rest & Ht & Hf) _ Hcount _ _ _ _].
  unfold nt35950_unprepare, bind, get_prepared. rewrite Hp. cbn [negb].
  rewrite Hoff.
  destruct (r <? 0);
    unfold dev_err, emit, gpiod_set_value_cansleep, regulator_bulk_disable,
      put_prepared, ret;
    cbn [log set_nt set_prepared nt use_count reset_value trace prepared];
    eexists; eexists; (split; [reflexivity|]);
    cbn [log set_nt set_prepared nt use_count reset_value trace prepared];
    rewrite Ht, Hcount.
  - split; [|split; [|auto]].
    + instantiate (1 := rest ++ [EvDevErr "Failed to un-initialize panel: %d\n" r]).
      rewrite <- !app_assoc. reflexivity.
    + apply Forall_app. split; [exact Hf|]. repeat constructor.
  - split; [|split; [|auto]].
    + instantiate (1 := rest). rewrite <- !app_assoc. reflexivity.
    + exact Hf.
Qed.

(** A prepared panel has both of its links: [prepared] is only ever set
    after an on-script that went through both of them. *)
Lemma reachable_links (w : world) :
  reachable w ->
  prepared (nt w) = true ->
  present (dsi0 (nt w)) = true /\ present (dsi1 (nt w)) = true.
Proof.
  induction 1 as [w Hp|w r w' Hreach IH Hret|w r w' Hreach IH Hret]; intros Hp'.
  - congruence.
  - eapply nt35950_prepare_keeps_links; eauto.
  - destruct (prepared (nt w)) eqn:Hp.
    + destruct (IH eq_refl) as [H0 H1].
      destruct (nt35950_unprepare_prepared w Hp H0 H1)
        as (w2 & script & Hun & _ & _ & _ & _ & Hf).
      rewrite Hun in Hret. injection Hret as _ <-. congruence.
    + destruct (unprepare_when_unprepared w r w' Hp Hret) as [_ ->]. congruence.
Qed.

(** *** The off-script, step by step, and the missing secondary link *)

Lemma bind_oops {A B : Type} (m : M A) (f : A -> M B) w w' :
  m w = Oops w' -> bind m f w = Oops w'.
Proof. unfold bind. intros ->. reflexivity. Qed.

Lemma bind_ret_step {A B : Type} (m : M A) (f : A -> M B) w a w1 :
  m w = Ret a w1 -> bind m f w = f a w1.
Proof. unfold bind. intros ->. reflexivity. Qed.

Lemma nt35950_on_oops (w : world) :
  dsi1 (nt w) = None -> exists w', nt35950_on w = Oops w'.
Proof.
  intros H1. unfold nt35950_on.
  destruct (dsi0 (nt w)) as [l0|] eqn:E0.
  - erewrite bind_ret_step
      by (unfold update_mode_flags; cbn [get_dsi]; rewrite E0; reflexivity).
    eexists. apply bind_oops.
    unfold update_mode_flags. cbn [get_dsi set_nt set_dsi nt dsi1].
    rewrite H1. reflexivity.
  - eexists. apply bind_oops.
    unfold update_mode_flags. cbn [get_dsi]. rewrite E0. reflexivity.
Qed.

Lemma nt35950_prepare_oops (w : world) :
  dsi1 (nt w) = None ->
  prepared (nt w) = false ->
  (forall t i, regulator_enable_result t i = 0) ->
  exists w', nt35950_prepare w = Oops w'.
Proof.
  intros H1 Hp Hok.
  destruct (nt35950_prepare_cases w Hp) as [(r & w' & _ & Hr & _ & _ & t & i & E)|Hup].
  - rewrite Hok in E. contradiction.
  - rewrite Hup. destruct (nt35950_on_oops (powered_up w) H1) as [w' Hon].
    exists w'. unfold prepare_script. apply bind_oops. exact Hon.
Qed.

Lemma nt35950_unprepare_single_link (w : world) :
  reachable w -> dsi1 (nt w) = None -> nt35950_unprepare w = Ret 0 w.
Proof.
  intros Hreach H1.
  destruct (prepared (nt w)) eqn:Hp.
  - destruct (reachable_links w Hreach Hp) as [_ H]. rewrite H1 in H. discriminate.
  - unfold nt35950_unprepare, bind, get_prepared. rewrite Hp. reflexivity.
Qed.

Ltac off_unfold :=
  unfold nt35950_off, or_log_return, mipi_dsi_dcs_set_display_off,
    mipi_dsi_dcs_enter_sleep_mode, dsi_transfer, update_mode_flags,
    usleep_range, msleep, dev_err, emit, bind, ret;
  cbn [log set_nt set_dsi nt use_count reset_value trace get_dsi dsi0 dsi1].

Lemma nt35950_off_display_off_fails (w : world) :
  dsi0 (nt w) <> None ->
  let r1 := dsi_transfer_result (trace w) 0%nat SetDisplayOff in
  r1 < 0 ->
  exists w', nt35950_off w = Ret r1 w' /\ nt w' = nt w /\
             trace w' = trace w ++ [ EvDsiWrite 0 SetDisplayOff;
                                     EvDevErr "Failed to set display off: %d\n" r1 ].
Proof.
  intros H0 r1 Hr1. subst r1.
  destruct w as [[[l0|] d1 v g ds pr] uc rv tr]; cbn [nt dsi0 trace] in *;
    [|congruence].
  off_unfold.
  destruct (Z.ltb_spec (dsi_transfer_result tr 0%nat SetDisplayOff) 0); [|lia].
  eexists. split; [reflexivity|]. cbn [log nt trace].
  split; [reflexivity|]. rewrite <- !app_assoc. reflexivity.
Qed.

Lemma nt35950_off_enter_sleep_fails (w : world) :
  dsi0 (nt w) <> None ->
  let r1 := dsi_transfer_result (trace w) 0%nat SetDisplayOff in
  let t2 := trace w ++ [EvDsiWrite 0 SetDisplayOff; EvUsleepRange 10000 11000] in
  let r2 := dsi_transfer_result t2 0%nat EnterSleepMode in
  0 <= r1 -> r2 < 0 ->
  exists w', nt35950_off w = Ret r2 w' /\ nt w' = nt w /\
             trace w' = t2 ++ [ EvDsiWrite 0 EnterSleepMode;
                                EvDevErr "Failed to enter sleep mode: %d\n" r2 ].
Proof.
  intros H0 r1 t2 r2 Hr1 Hr2. subst r1 r2 t2.
  destruct w as [[[l0|] d1 v g ds pr] uc rv tr]; cbn [nt dsi0 trace] in *;
    [|congruence].
  off_unfold.
  destruct (Z.ltb_spec (dsi_transfer_result tr 0%nat SetDisplayOff) 0); [lia|].
  cbn [log set_nt set_dsi nt use_count reset_value trace get_dsi dsi0 dsi1].
  rewrite <- !app_assoc. cbn [app].
  destruct (Z.ltb_spec (dsi_transfer_result
              (tr ++ [EvDsiWrite 0 SetDisplayOff; EvUsleepRange 10000 11000])
              0%nat EnterSleepMode) 0); [|lia].
  eexists. split; [reflexivity|]. cbn [log nt trace].
  split; [reflexivity|]. rewrite <- !app_assoc. reflexivity.
Qed.

Lemma nt35950_off_succeeds (w : world) :
  dsi0 (nt w) <> None ->
  let r1 := dsi_transfer_result (trace w) 0%nat SetDisplayOff in
  let t2 := trace w ++ [EvDsiWrite 0 SetDisplayOff; EvUsleepRange 10000 11000] in
  let r2 := dsi_transfer_result t2 0%nat EnterSleepMode in
  0 <= r1 -> 0 <= r2 ->
  match dsi1 (nt w) with
  | Some _ =>
      exists w' l0 l1,
        nt35950_off w = Ret 0 w' /\
        trace w' = t2 ++ [EvDsiWrite 0 EnterSleepMode; EvMsleep 150] /\
        dsi0 (nt w') = Some l0 /\ dsi1 (nt w') = Some l1 /\
        lpm_flag l0 = MIPI_DSI_MODE_LPM /\ lpm_flag l1 = MIPI_DSI_MODE_LPM
  | None => exists w', nt35950_off w = Oops w'
  end.
Proof.
  intros H0 r1 t2 r2 Hr1 Hr2. subst r1 r2 t2.
  destruct w as [[[l0|] d1 v g ds pr] uc rv tr]; cbn [nt dsi0 dsi1 trace] in *;
    [|congruence].
  off_unfold.
  destruct (Z.ltb_spec (dsi_transfer_result tr 0%nat SetDisplayOff) 0); [lia|].
  cbn [log set_nt set_dsi nt use_count reset_value trace get_dsi dsi0 dsi1].
  rewrite <- !app_assoc. cbn [app].
  destruct (Z.ltb_spec (dsi_transfer_result
              (tr ++ [EvDsiWrite 0 SetDisplayOff; EvUsleepRange 10000 11000])
              0%nat EnterSleepMode) 0); [lia|].
  cbn [log set_nt set_dsi nt use_count reset_value trace get_dsi dsi0 dsi1].
  destruct d1 as [l1|].
  - do 3 eexists. split; [reflexivity|]. world_simpl.
    split; [rewrite <- ?app_assoc; reflexivity|].
    split; [reflexivity|]. split; [reflexivity|].
    unfold lpm_flag. cbn [set_mode_flags mode_flags].
    split; apply lpm_set_flag.
  - eexists. reflexivity.
Qed.

(** *** Binding: the regulator table and the links *)

Ltac split_ifs :=
  repeat match goal with
         | |- context [if ?c then _ else _] => destruct c
         end.

(** The regulator init always returns; it names the six supplies and
    touches nothing else of the driver structure or of the hardware. *)
Lemma nt35950_sharp_init_vregs_returns (w : world) :
  exists r w1,
    nt35950_sharp_init_vregs w = Ret r w1 /\
    nt w1 = {| dsi0 := dsi0 (nt w); dsi1 := dsi1 (nt w);
               vregs := list_set (list_set (list_set (list_set (list_set (list_set
                          (vregs (nt w)) 0 "vddio"%string) 1 "tvddio"%string)
                          2 "tavdd"%string) 3 "avdd"%string) 4 "avee"%string)
                          5 "dvdd"%string;
               reset_gpio := reset_gpio (nt w); desc := desc (nt w);
               prepared := prepared (nt w) |} /\
    use_count w1 = use_count w /\ reset_value w1 = reset_value w.
Proof.
  destruct w as [[d0 d1 v g ds pr] uc rv tr].
  unfold nt35950_sharp_init_vregs, set_supply, or_log_return, or_return_z,
    devm_regulator_bulk_get, regulator_is_supported_voltage, dev_err, emit,
    bind, ret.
  cbn [log set_nt nt use_count reset_value trace dsi0 dsi1 vregs reset_gpio
       desc prepared].
  split_ifs; do 2 eexists; (split; [reflexivity|]);
    cbn [log set_nt nt use_count reset_value trace]; repeat split.
Qed.

Lemma no_secondary_refl w : no_secondary_rel w w.
Proof. intros H. exact H. Qed.

Lemma no_secondary_trans w1 w2 w3 :
  no_secondary_rel w1 w2 -> no_secondary_rel w2 w3 -> no_secondary_rel w1 w3.
Proof. unfold no_secondary_rel. auto. Qed.

Lemma no_secondary_emit e : respects no_secondary_rel (emit e).
Proof. intros w H. exact H. Qed.

Lemma no_secondary_put_desc d : respects no_secondary_rel (put_desc d).
Proof. intros w H. exact H. Qed.

Lemma no_secondary_put_reset_gpio : respects no_secondary_rel put_reset_gpio.
Proof. intros w H. exact H. Qed.

Lemma no_secondary_put_dsi0 d : respects no_secondary_rel (put_dsi 0 d).
Proof. intros w H. exact H. Qed.

Lemma no_secondary_gpiod v : respects no_secondary_rel (gpiod_set_value_cansleep v).
Proof. intros w H. exact H. Qed.

Lemma no_secondary_read_desc : respects no_secondary_rel read_desc.
Proof. intros w H. unfold read_desc. destruct (desc (nt w)); exact H. Qed.

Lemma no_secondary_update_dsi i f : respects no_secondary_rel (update_dsi i f).
Proof.
  intros w H. unfold update_dsi.
  destruct i as [|i]; cbn [get_dsi].
  - destruct (dsi0 (nt w)); exact H.
  - rewrite H. exact H.
Qed.

Lemma no_secondary_attach i : respects no_secondary_rel (mipi_dsi_attach i).
Proof.
  intros w H. unfold mipi_dsi_attach. destruct (get_dsi (nt w) i); exact H.
Qed.

Lemma no_secondary_init_vregs : respects no_secondary_rel nt35950_sharp_init_vregs.
Proof.
  intros w H.
  destruct (nt35950_sharp_init_vregs_returns w) as (r & w1 & E & Hnt & _).
  rewrite E. cbn [final]. rewrite Hnt. exact H.
Qed.

Create HintDb nosec discriminated.
#[local] Hint Resolve no_secondary_emit no_secondary_put_desc
  no_secondary_put_reset_gpio no_secondary_put_dsi0 no_secondary_gpiod
  no_secondary_read_desc no_secondary_update_dsi no_secondary_attach
  no_secondary_init_vregs : nosec.
#[local] Hint Extern 1 (respects no_secondary_rel (ret _)) =>
  apply (respects_ret no_secondary_rel no_secondary_refl) : nosec.
#[local] Hint Extern 1 (respects no_secondary_rel (bind _ _)) =>
  apply (respects_bind no_secondary_rel no_secondary_trans); [|intros ?] : nosec.
#[local] Hint Extern 1 (respects no_secondary_rel (if _ then _ else _)) =>
  apply respects_if : nosec.
#[local] Hint Unfold or_log_return dev_err dev_err_probe configure_link : nosec.

Lemma no_secondary_attach_links todo i k :
  respects no_secondary_rel k ->
  respects no_secondary_rel (attach_links todo i k).
Proof.
  intros Hk. revert i.
  induction todo as [|todo IH]; intros i; cbn [attach_links]; [exact Hk|].
  autounfold with nosec. auto 20 with nosec.
Qed.

Lemma no_secondary_probe_finish dsi n :
  respects no_secondary_rel (probe_finish dsi n).
Proof.
  unfold probe_finish. autounfold with nosec.
  repeat first [ apply (respects_bind no_secondary_rel no_secondary_trans); [|intros ?]
               | apply respects_if
               | apply no_secondary_attach_links
               | solve [auto with nosec] ].
Qed.

(** For a single-link descriptor [probe] leaves [nt->dsi[1]] NULL. *)
Lemma nt35950_probe_single_link (dsi : mipi_dsi_device) (w : world) d :
  devm_kzalloc_ok env = true ->
  of_device_get_match_data_result env = Some d ->
  is_dual_dsi d = false ->
  dsi1 (nt (final (nt35950_probe dsi w))) = None.
Proof.
  intros Hk Hmd Hdual. unfold nt35950_probe. rewrite Hk, Hmd. cbn [negb].
  rewrite (bind_ret_step devm_kzalloc _ w tt (set_nt w nt35950_zero) eq_refl).
  match goal with
  | |- dsi1 (nt (final (?m ?w0))) = None =>
      assert (Hm : respects no_secondary_rel m); [|exact (Hm w0 eq_refl)]
  end.
  rewrite Hdual. autounfold with nosec.
  destruct (devm_gpiod_get_result env);
    repeat first [ apply (respects_bind no_secondary_rel no_secondary_trans); [|intros ?]
                 | apply respects_if
                 | apply no_secondary_probe_finish
                 | solve [auto with nosec] ].
Qed.

(** Run the rest of [probe] on an explicit world. *)
Ltac probe_run :=
  cbv beta iota zeta delta
    [probe_finish attach_links configure_link or_log_return dev_err_probe
     put_desc put_reset_gpio put_dsi read_desc update_dsi mipi_dsi_attach
     gpiod_set_value_cansleep dev_err emit bind ret log set_nt set_dsi get_dsi
     set_mode_flags nt use_count reset_value trace dsi0 dsi1 vregs reset_gpio
     desc prepared is_video_mode is_dual_dsi num_lanes lanes format mode_flags
     negb Z.eqb present].

(** Whatever the regulator calls answered, [probe] goes on, and returns 0
    when everything after the regulator init succeeds. *)
Lemma nt35950_probe_succeeds (dsi : mipi_dsi_device) (w : world) d :
  devm_kzalloc_ok env = true ->
  of_device_get_match_data_result env = Some d ->
  devm_gpiod_get_result env = GpiodDesc ->
  (is_dual_dsi d = true ->
   of_graph_get_remote_node_ok env = true /\
   of_find_mipi_dsi_host_by_node_ok env = true /\
   mipi_dsi_device_register_full_result env <> None) ->
  drm_panel_of_backlight_result env = 0 ->
  (forall i, 0 <= mipi_dsi_attach_result env i) ->
  exists w',
    nt35950_probe dsi w = Ret 0 w' /\
    desc (nt w') = Some d /\ prepared (nt w') = false /\
    present (dsi0 (nt w')) = true /\
    present (dsi1 (nt w')) = is_dual_dsi d /\
    reset_value w' = 0.
Proof.
  intros Hk Hmd Hgpio Hdual Hbl Hatt.
  unfold nt35950_probe. rewrite Hk, Hmd, Hgpio. cbn [negb].
  rewrite (bind_ret_step devm_kzalloc _ w tt (set_nt w nt35950_zero) eq_refl).
  destruct (nt35950_sharp_init_vregs_returns (set_nt w nt35950_zero))
    as (r & w1 & E & Hnt & _ & _).
  rewrite (bind_ret_step _ _ _ _ _ E).
  cbn [set_nt nt nt35950_zero dsi0 dsi1 vregs reset_gpio desc prepared] in Hnt.
  assert (Hlog : exists w2,
            (if negb (r =? 0) && negb (r =? - EPROBE_DEFER)
             then dev_err "Regulator init failure: %d -- NO FAILURE: DEVELOPMENT MODE\n" r
             else ret tt) w1 = Ret tt w2 /\ nt w2 = nt w1).
  { destruct (negb (r =? 0) && negb (r =? - EPROBE_DEFER)); eexists; split; reflexivity. }
  destruct Hlog as (w2 & Elog & Hnt2). rewrite Hnt in Hnt2.
  rewrite (bind_ret_step _ _ _ _ _ Elog). clear E Elog Hnt.
  destruct w2 as [n2 uc2 rv2 tr2]. cbn [nt] in Hnt2. subst n2.
  destruct d as [mn nl sram vm dual]. cbn [is_dual_dsi] in *.
  unfold probe_finish. rewrite Hbl.
  destruct dual.
  - destruct (Hdual eq_refl) as (Hrn & Hhost & Hrf).
    rewrite Hrn, Hhost.
    destruct (mipi_dsi_device_register_full_result env) as [l1|]; [|congruence].
    destruct vm; probe_run;
      (destruct (Z.ltb_spec (mipi_dsi_attach_result env 0) 0) as [Hneg|_];
       [specialize (Hatt 0%nat); lia|]); probe_run;
      (destruct (Z.ltb_spec (mipi_dsi_attach_result env 1) 0) as [Hneg|_];
       [specialize (Hatt 1%nat); lia|]); probe_run;
      eexists; (split; [reflexivity|]); repeat split.
  - destruct vm; probe_run;
      (destruct (Z.ltb_spec (mipi_dsi_attach_result env 0) 0) as [Hneg|_];
       [specialize (Hatt 0%nat); lia|]); probe_run;
      eexists; (split; [reflexivity|]); repeat split.
Qed.



(** The regulator table after the init of a fresh structure, read in the
    order in which [prepare] enables. *)
Lemma nt35950_sharp_init_vregs_supplies (w0 : world) :
  map (supply (nt (final (nt35950_sharp_init_vregs (set_nt w0 nt35950_zero)))))
      [0; 5; 3; 4; 1; 2]%nat
  = ["vddio"; "dvdd"; "avdd"; "avee"; "tvddio"; "tavdd"]%string.
Proof.
  destruct (nt35950_sharp_init_vregs_returns (set_nt w0 nt35950_zero))
    as (r & w1 & E & Hnt & _).
  rewrite E. cbn [final]. rewrite Hnt. reflexivity.
Qed.

(** C6, as the code has it: an on-script that returns 0 has handed to the
    transport exactly the transfers of [on_script_events], in that order, all
    on link 0; these are 19 transfers; and the low-power-mode bit is then
    clear on both links. *)
Theorem nt35950_on_success (w w' : world) :
  nt35950_on w = Ret 0 w' ->
  exists d l0 l1,
    desc (nt w) = Some d /\
    trace w' = trace w ++ on_script_events d /\
    transport_writes (on_script_events d) = 19%nat /\
    dsi0 (nt w') = Some l0 /\ dsi1 (nt w') = Some l1 /\
    lpm_flag l0 = 0 /\ lpm_flag l1 = 0.
Proof.
  intros H. apply nt35950_on_ret0 in H.
  destruct H as (d & l0 & l1 & Hd & _ & _ & Ht & H0 & H1).
  exists d. eexists. eexists.
  split; [exact Hd|]. split; [exact Ht|]. split; [reflexivity|].
  split; [exact H0|]. split; [exact H1|].
  unfold lpm_flag. cbn [set_mode_flags mode_flags]. split; apply lpm_clear_flag.
Qed.

(** C8, as the code has it: after an on-script and an off-script that both
    returned 0 the low-power-mode bit is set on both links, whatever it was
    before, and the other mode flags are what they were; so the bit is back
    at its value from before the on-script exactly when it was set then. *)
Theorem nt35950_on_off_lpm (w w1 w2 : world) :
  nt35950_on w = Ret 0 w1 ->
  nt35950_off w1 = Ret 0 w2 ->
  exists a0 a1 b0 b1,
    dsi0 (nt w) = Some a0 /\ dsi1 (nt w) = Some a1 /\
    dsi0 (nt w2) = Some b0 /\ dsi1 (nt w2) = Some b1 /\
    lpm_flag b0 = MIPI_DSI_MODE_LPM /\ lpm_flag b1 = MIPI_DSI_MODE_LPM /\
    Z.land (mode_flags b0) (Z.lnot MIPI_DSI_MODE_LPM) =
      Z.land (mode_flags a0) (Z.lnot MIPI_DSI_MODE_LPM) /\
    Z.land (mode_flags b1) (Z.lnot MIPI_DSI_MODE_LPM) =
      Z.land (mode_flags a1) (Z.lnot MIPI_DSI_MODE_LPM) /\
    (lpm_flag b0 = lpm_flag a0 <-> lpm_flag a0 = MIPI_DSI_MODE_LPM) /\
    (lpm_flag b1 = lpm_flag a1 <-> lpm_flag a1 = MIPI_DSI_MODE_LPM).
Proof.
  intros Hon Hoff.
  apply nt35950_on_ret0 in Hon.
  destruct Hon as (d & a0 & a1 & _ & Ha0 & Ha1 & _ & Hc0 & Hc1).
  apply nt35950_off_ret0 in Hoff.
  destruct Hoff as (c0 & c1 & Hc0' & Hc1' & _ & Hb0 & Hb1).
  rewrite Hc0 in Hc0'. injection Hc0' as <-.
  rewrite Hc1 in Hc1'. injection Hc1' as <-.
  cbn [set_mode_flags mode_flags] in Hb0, Hb1.
  do 4 eexists.
  split; [exact Ha0|]. split; [exact Ha1|].
  split; [exact Hb0|]. split; [exact Hb1|].
  unfold lpm_flag. cbn [set_mode_flags mode_flags].
  rewrite !lpm_set_flag, !lpm_set_others, !lpm_clear_others, !lpm_set_others.
  repeat split; congruence.
Qed.

(** C3: on every prepared panel the lifecycle can produce, [unprepare]
    returns 0; after the off-script (transfers, waits and log lines only)
    the last two things it does are to write 0 to the reset line and to bulk
    disable the six regulators (one enable less outstanding on each);
    [prepared] is false afterwards.  What the off-script returned plays no
    part. *)
Theorem nt35950_unprepare_always (w : world) :
  reachable w ->
  prepared (nt w) = true ->
  exists w' script,
    nt35950_unprepare w = Ret 0 w' /\
    trace w' = trace w ++ script ++
                 [EvGpioSet 0; EvRegulatorBulkDisable NT35950_VREG_MAX] /\
    Forall script_event script /\
    reset_value w' = 0 /\
    (forall i, use_count w' i =
               if (i <? 6)%nat then Nat.pred (use_count w i) else use_count w i) /\
    prepared (nt w') = false.
Proof.
  intros Hreach Hp.
  destruct (reachable_links w Hreach Hp) as [H0 H1].
  destruct (nt35950_unprepare_prepared w Hp H0 H1)
    as (w' & script & Hun & Ht & Hs & Hreset & Hcount & Hf).
  exists w', script. repeat split; try assumption.
  intros i. rewrite Hcount. reflexivity.
Qed.

(** C5: when the panel is not prepared and every regulator enables,
    [prepare] starts with the rails in the order 0, 5, 3 and 4, 1 and 2 of
    the regulator table, which the regulator init names vddio, dvdd, avdd
    and avee, tvddio and tavdd, with waits of 2-5 ms, 15-18 ms, 12-13 ms and
    15-16 ms after the groups; then it writes the reset line 1 for 12-13 ms,
    0 for 0.3-0.4 ms, 1 for 12-13 ms.  Nothing after that enables a
    regulator or writes the reset line, which is still 1 when [prepare]
    ends. *)
Theorem nt35950_prepare_power_up (w : world) :
  prepared (nt w) = false ->
  (forall t i, regulator_enable_result t i = 0) ->
  (exists script,
     trace (final (nt35950_prepare w)) =
       trace w ++ power_up_events ++ reset_pulse_events ++ script /\
     Forall (fun e => ~ power_on_event e) script) /\
  reset_value (final (nt35950_prepare w)) = 1 /\
  (forall w0,
     map (supply (nt (final (nt35950_sharp_init_vregs (set_nt w0 nt35950_zero)))))
         [0; 5; 3; 4; 1; 2]%nat
     = ["vddio"; "dvdd"; "avdd"; "avee"; "tvddio"; "tavdd"]%string).
Proof.
  intros Hp Hok.
  destruct (nt35950_prepare_cases w Hp) as [(r & w' & _ & Hr & _ & _ & t & i & E)|Hup].
  - rewrite Hok in E. contradiction.
  - rewrite Hup.
    destruct (prepare_script_final (powered_up w)) as (rest & Ht & Hf & Hreset).
    split; [|split; [exact Hreset|exact nt35950_sharp_init_vregs_supplies]].
    exists rest. split; [|exact Hf]. rewrite Ht. unfold powered_up. cbn [trace].
    rewrite <- !app_assoc. reflexivity.
Qed.

(** C7, as the code has it: [probe] leaves [dsi[1]] NULL for a single-link
    descriptor; the on-script reads and writes the mode flags of [dsi[1]]
    without a check, so with [dsi[1]] NULL it always faults, and so does a
    [prepare] that gets to it (panel not prepared, six rails up); the
    off-script gets to [dsi[1]] only after both of its transfers succeeded;
    and since [prepared] can then never be set, [unprepare] on such a panel
    is always the call that does nothing. *)
Theorem nt35950_single_link_null_deref (w : world) :
  dsi1 (nt w) = None ->
  (exists w', nt35950_on w = Oops w') /\
  (prepared (nt w) = false ->
   (forall t i, regulator_enable_result t i = 0) ->
   exists w', nt35950_prepare w = Oops w') /\
  (dsi0 (nt w) <> None ->
   0 <= dsi_transfer_result (trace w) 0%nat SetDisplayOff ->
   0 <= dsi_transfer_result
          (trace w ++ [EvDsiWrite 0 SetDisplayOff; EvUsleepRange 10000 11000])
          0%nat EnterSleepMode ->
   exists w', nt35950_off w = Oops w') /\
  (reachable w -> nt35950_unprepare w = Ret 0 w) /\
  (forall dsi w0 d,
     devm_kzalloc_ok env = true ->
     of_device_get_match_data_result env = Some d ->
     is_dual_dsi d = false ->
     dsi1 (nt (final (nt35950_probe dsi w0))) = None).
Proof.
  intros H1. split; [|split; [|split; [|split]]].
  - exact (nt35950_on_oops w H1).
  - intros Hp Hok. exact (nt35950_prepare_oops w H1 Hp Hok).
  - intros H0 Hr1 Hr2.
    pose proof (nt35950_off_succeeds w H0 Hr1 Hr2) as H.
    rewrite H1 in H. exact H.
  - intros Hreach. exact (nt35950_unprepare_single_link w Hreach H1).
  - intros dsi w0 d. apply nt35950_probe_single_link.
Qed.

(** C10, as the code has it: a failed voltage-range check or a failed bulk
    acquisition of the regulators does not make construction fail.  Whatever
    the regulator calls answered, [probe] returns 0 with a bound, unprepared
    panel as soon as the allocation, the descriptor lookup, the reset GPIO
    lookup, the secondary link of a dual-link descriptor, the backlight
    lookup and the link attach succeed. *)
Theorem nt35950_probe_regulator_failure_not_fatal
    (dsi : mipi_dsi_device) (w : world) (d : nt35950_panel_desc) :
  devm_kzalloc_ok env = true ->
  of_device_get_match_data_result env = Some d ->
  devm_gpiod_get_result env = GpiodDesc ->
  (is_dual_dsi d = true ->
   of_graph_get_remote_node_ok env = true /\
   of_find_mipi_dsi_host_by_node_ok env = true /\
   mipi_dsi_device_register_full_result env <> None) ->
  drm_panel_of_backlight_result env = 0 ->
  (forall i, 0 <= mipi_dsi_attach_result env i) ->
  exists w',
    nt35950_probe dsi w = Ret 0 w' /\
    desc (nt w') = Some d /\ prepared (nt w') = false /\
    present (dsi0 (nt w')) = true /\
    present (dsi1 (nt w')) = is_dual_dsi d /\
    reset_value w' = 0.
Proof. exact (nt35950_probe_succeeds dsi w d). Qed.

(** C2, as the code has it: the off-script stops at the first transfer that
    fails.  When [display off] fails, its error is logged and returned, and
    nothing else is sent or changed; when [enter sleep] fails after a good
    [display off] and its 10-11 ms wait, that error is logged and returned
    and the link flags stay as they were; when both transfers succeed (and
    the secondary link exists) the low-power-mode bit is set on both links
    and 0 is returned. *)
Theorem nt35950_off_stops_at_first_failure (w : world) :
  dsi0 (nt w) <> None ->
  let r1 := dsi_transfer_result (trace w) 0%nat SetDisplayOff in
  let t2 := trace w ++ [EvDsiWrite 0 SetDisplayOff; EvUsleepRange 10000 11000] in
  let r2 := dsi_transfer_result t2 0%nat EnterSleepMode in
  (r1 < 0 ->
   exists w', nt35950_off w = Ret r1 w' /\ nt w' = nt w /\
              trace w' = trace w ++ [ EvDsiWrite 0 SetDisplayOff;
                                      EvDevErr "Failed to set display off: %d\n" r1 ]) /\
  (0 <= r1 -> r2 < 0 ->
   exists w', nt35950_off w = Ret r2 w' /\ nt w' = nt w /\
              trace w' = t2 ++ [ EvDsiWrite 0 EnterSleepMode;
                                 EvDevErr "Failed to enter sleep mode: %d\n" r2 ]) /\
  (0 <= r1 -> 0 <= r2 -> dsi1 (nt w) <> None ->
   exists w' l0 l1,
     nt35950_off w = Ret 0 w' /\
     trace w' = t2 ++ [EvDsiWrite 0 EnterSleepMode; EvMsleep 150] /\
     dsi0 (nt w') = Some l0 /\ dsi1 (nt w') = Some l1 /\
     lpm_flag l0 = MIPI_DSI_MODE_LPM /\ lpm_flag l1 = MIPI_DSI_MODE_LPM).
Proof.
  intros H0 r1 t2 r2. split; [|split].
  - intros Hr1. exact (nt35950_off_display_off_fails w H0 Hr1).
  - intros Hr1 Hr2. exact (nt35950_off_enter_sleep_fails w H0 Hr1 Hr2).
  - intros Hr1 Hr2 H1.
    pose proof (nt35950_off_succeeds w H0 Hr1 Hr2) as H.
    destruct (dsi1 (nt w)); [exact H|congruence].
Qed.

(** ** Further properties *)

(** *** Nothing goes over the secondary link *)

Lemma primary_only_refl w : primary_only_rel w w.
Proof. exists []. split; [now rewrite app_nil_r|constructor]. Qed.

Lemma primary_only_trans w1 w2 w3 :
  primary_only_rel w1 w2 -> primary_only_rel w2 w3 -> primary_only_rel w1 w3.
Proof.
  intros (t1 & H1 & F1) (t2 & H2 & F2). exists (t1 ++ t2).
  split; [|apply Forall_app; auto]. rewrite H2, H1. now rewrite app_assoc.
Qed.

Lemma primary_only_log w e : link0_event e -> primary_only_rel w (log w e).
Proof. intros He. exists [e]. split; [reflexivity|]. repeat constructor. exact He. Qed.

Lemma primary_only_same_trace w w' : trace w' = trace w -> primary_only_rel w w'.
Proof. intros H. exists []. split; [now rewrite app_nil_r|constructor]. Qed.

Lemma primary_only_emit e : link0_event e -> respects primary_only_rel (emit e).
Proof. intros He w. apply primary_only_log. exact He. Qed.

Lemma primary_only_transfer p : respects primary_only_rel (dsi_transfer 0 p).
Proof.
  intros w. unfold dsi_transfer. destruct (get_dsi (nt w) 0); cbn [final];
    [apply primary_only_log; reflexivity|apply primary_only_refl].
Qed.

Lemma primary_only_update_mode_flags i f :
  respects primary_only_rel (update_mode_flags i f).
Proof.
  intros w. unfold update_mode_flags.
  destruct (get_dsi (nt w) i); cbn [final];
    apply primary_only_same_trace; reflexivity.
Qed.

Lemma primary_only_read_desc : respects primary_only_rel read_desc.
Proof.
  intros w. unfold read_desc. destruct (desc (nt w)); apply primary_only_refl.
Qed.

Lemma primary_only_regulator_enable i : respects primary_only_rel (regulator_enable i).
Proof. intros w. exists [EvRegulatorEnable i]. split; [reflexivity|]. repeat constructor. Qed.

Lemma primary_only_bulk_disable n : respects primary_only_rel (regulator_bulk_disable n).
Proof. intros w. exists [EvRegulatorBulkDisable n]. split; [reflexivity|]. repeat constructor. Qed.

Lemma primary_only_gpiod v : respects primary_only_rel (gpiod_set_value_cansleep v).
Proof. intros w. exists [EvGpioSet v]. split; [reflexivity|]. repeat constructor. Qed.

Lemma primary_only_get_prepared : respects primary_only_rel get_prepared.
Proof. intros w. apply primary_only_refl. Qed.

Lemma primary_only_put_prepared b : respects primary_only_rel (put_prepared b).
Proof. intros w. apply primary_only_same_trace. reflexivity. Qed.

Create HintDb primary discriminated.
#[local] Hint Resolve primary_only_transfer primary_only_update_mode_flags
  primary_only_read_desc primary_only_regulator_enable primary_only_bulk_disable
  primary_only_gpiod primary_only_get_prepared primary_only_put_prepared : primary.
#[local] Hint Extern 1 (respects primary_only_rel (emit _)) =>
  apply primary_only_emit; exact I : primary.
#[local] Hint Extern 1 (respects primary_only_rel (ret _)) =>
  apply (respects_ret primary_only_rel primary_only_refl) : primary.
#[local] Hint Extern 1 (respects primary_only_rel (bind _ _)) =>
  apply (respects_bind primary_only_rel primary_only_trans); [|intros ?] : primary.
#[local] Hint Extern 1 (respects primary_only_rel (if _ then _ else _)) =>
  apply respects_if : primary.
#[local] Hint Unfold or_return or_log_return or_return_nz dsi_dcs_write_seq
  mipi_dsi_dcs_write_buffer usleep_range msleep dev_err
  nt35950_set_cmd2_page nt35950_set_data_compression nt35950_set_scaler
  nt35950_inject_black_image nt35950_set_dispout nt35950_reset
  mipi_dsi_dcs_set_tear_on mipi_dsi_dcs_set_tear_scanline
  mipi_dsi_dcs_exit_sleep_mode mipi_dsi_dcs_set_display_on
  mipi_dsi_dcs_set_display_off mipi_dsi_dcs_enter_sleep_mode : primary.

Lemma nt35950_on_primary_only : respects primary_only_rel nt35950_on.
Proof. unfold nt35950_on. autounfold with primary. auto 50 with primary. Qed.

Lemma nt35950_off_primary_only : respects primary_only_rel nt35950_off.
Proof. unfold nt35950_off. autounfold with primary. auto 20 with primary. Qed.

Lemma nt35950_prepare_primary_only : respects primary_only_rel nt35950_prepare.
Proof.
  unfold nt35950_prepare. autounfold with primary.
  repeat first [ apply nt35950_on_primary_only
               | apply (respects_bind primary_only_rel primary_only_trans); [|intros ?]
               | apply respects_if
               | solve [auto with primary] ].
Qed.

Lemma nt35950_unprepare_primary_only : respects primary_only_rel nt35950_unprepare.
Proof.
  unfold nt35950_unprepare. autounfold with primary.
  repeat first [ apply nt35950_off_primary_only
               | apply (respects_bind primary_only_rel primary_only_trans); [|intros ?]
               | apply respects_if
               | solve [auto with primary] ].
Qed.

(** X1: whatever the on-script, the off-script, [prepare] or [unprepare] do,
    and whether they return or fault, every transfer they make is on link
    0: the secondary link never receives a command. *)
Theorem lifecycle_transfers_on_primary_only (m : M Z) (w : world) :
  In m [nt35950_on; nt35950_off; nt35950_prepare; nt35950_unprepare] ->
  exists rest,
    trace (final (m w)) = trace w ++ rest /\
    forall l p, In (EvDsiWrite l p) rest -> l = 0%nat.
Proof.
  intros Hm.
  assert (H : respects primary_only_rel m).
  { destruct Hm as [<-|[<-|[<-|[<-|[]]]]];
      [ apply nt35950_on_primary_only | apply nt35950_off_primary_only
      | apply nt35950_prepare_primary_only | apply nt35950_unprepare_primary_only ]. }
  destruct (H w) as (rest & Ht & Hf). exists rest. split; [exact Ht|].
  intros l p Hin. rewrite Forall_forall in Hf. exact (Hf _ Hin).
Qed.

(** *** What a script returns when it fails *)

Lemma nonpos_ret0 : returns_nonpos (ret 0).
Proof. intros w r w' H. unfold ret in H. injection H as <- _. lia. Qed.

Lemma nonpos_bind {A : Type} (m : M A) (f : A -> M Z) :
  (forall a, returns_nonpos (f a)) -> returns_nonpos (bind m f).
Proof.
  intros Hf w r w' H. apply bind_ret_inv in H. destruct H as (a & w1 & _ & H).
  exact (Hf a w1 r w' H).
Qed.

Lemma nonpos_or_return (e k : M Z) :
  returns_nonpos k -> returns_nonpos (or_return e k).
Proof.
  intros Hk. unfold or_return. apply nonpos_bind. intros a.
  destruct (Z.ltb_spec a 0) as [Ha|Ha]; [|exact Hk].
  intros w r w' H. unfold ret in H. injection H as <- _. lia.
Qed.

Lemma nonpos_or_log_return (e k : M Z) msg :
  returns_nonpos k -> returns_nonpos (or_log_return e msg k).
Proof.
  intros Hk. unfold or_log_return. apply nonpos_bind. intros a.
  destruct (Z.ltb_spec a 0) as [Ha|Ha]; [|exact Hk].
  intros w r w' H. unfold bind, dev_err, emit, ret in H. injection H as <- _. lia.
Qed.

Ltac nonpos_script :=
  repeat first [ apply nonpos_or_return
               | apply nonpos_or_log_return
               | apply nonpos_ret0
               | apply nonpos_bind; intros ? ].

Lemma nt35950_on_nonpos : returns_nonpos nt35950_on.
Proof. unfold nt35950_on, dsi_dcs_write_seq. nonpos_script. Qed.












(** *** The links after a failed on-script *)

Lemma keeps_nt_transfer link p : keeps_nt (dsi_transfer link p).
Proof. intros w r w' H. apply dsi_transfer_inv in H. tauto. Qed.

Lemma keeps_nt_emit e : keeps_nt (emit e).
Proof. intros w u w' H. apply emit_inv in H. tauto. Qed.

Lemma keeps_nt_read_desc : keeps_nt read_desc.
Proof. intros w d w' H. apply read_desc_inv in H. destruct H as [_ ->]. reflexivity. Qed.

Lemma keeps_nt_ret {A : Type} (a : A) : keeps_nt (ret a).
Proof. intros w a' w' H. unfold ret in H. injection H as _ <-. reflexivity. Qed.

Lemma keeps_nt_bind {A B : Type} (m : M A) (f : A -> M B) :
  keeps_nt m -> (forall a, keeps_nt (f a)) -> keeps_nt (bind m f).
Proof.
  intros Hm Hf w b w' H. apply bind_ret_inv in H. destruct H as (a & w1 & H1 & H2).
  rewrite (Hf a w1 b w' H2). exact (Hm w a w1 H1).
Qed.

Lemma keeps_nt_or_return (e k : M Z) :
  keeps_nt e -> keeps_nt k -> keeps_nt (or_return e k).
Proof.
  intros He Hk. unfold or_return. apply keeps_nt_bind; [exact He|].
  intros a. destruct (a <? 0); [apply keeps_nt_ret|exact Hk].
Qed.

Lemma keeps_nt_on_error_bind {A : Type} (m : M A) (f : A -> M Z) :
  keeps_nt m -> (forall a, keeps_nt_on_error (f a)) -> keeps_nt_on_error (bind m f).
Proof.
  intros Hm Hf w r w' H Hr. apply bind_ret_inv in H. destruct H as (a & w1 & H1 & H2).
  rewrite (Hf a w1 r w' H2 Hr). exact (Hm w a w1 H1).
Qed.

Lemma keeps_nt_on_error_or_return (e k : M Z) :
  keeps_nt e -> keeps_nt_on_error k -> keeps_nt_on_error (or_return e k).
Proof.
  intros He Hk. unfold or_return. apply keeps_nt_on_error_bind; [exact He|].
  intros a. destruct (a <? 0); [|exact Hk].
  intros w r w' H _. exact (keeps_nt_ret a w r w' H).
Qed.

Lemma keeps_nt_on_error_or_log_return (e k : M Z) msg :
  keeps_nt e -> keeps_nt_on_error k -> keeps_nt_on_error (or_log_return e msg k).
Proof.
  intros He Hk. unfold or_log_return. apply keeps_nt_on_error_bind; [exact He|].
  intros a. destruct (a <? 0); [|exact Hk].
  intros w r w' H _.
  assert (Hk' : keeps_nt (dev_err msg a ;; ret a))
    by (apply keeps_nt_bind; [apply keeps_nt_emit|intros ?; apply keeps_nt_ret]).
  exact (Hk' w r w' H).
Qed.

(** The two assignments that end the on-script return 0 only. *)
Lemma keeps_nt_on_error_flags f g :
  keeps_nt_on_error (update_mode_flags 0 f ;; update_mode_flags 1 g ;; ret 0).
Proof.
  intros w r w' H Hr.
  apply bind_ret_inv in H. destruct H as (u0 & w0 & _ & H).
  apply bind_ret_inv in H. destruct H as (u1 & w1 & _ & H).
  unfold ret in H. injection H as <- _. lia.
Qed.

Ltac keeps_nt_script :=
  repeat lazymatch goal with
         | |- keeps_nt (or_return _ _) => apply keeps_nt_or_return
         | |- keeps_nt (dsi_transfer _ _) => apply keeps_nt_transfer
         | |- keeps_nt (emit _) => apply keeps_nt_emit
         | |- keeps_nt read_desc => apply keeps_nt_read_desc
         | |- keeps_nt (bind _ _) => apply keeps_nt_bind; [|intros ?]
         | |- keeps_nt_on_error (or_return _ _) => apply keeps_nt_on_error_or_return
         | |- keeps_nt_on_error (or_log_return _ _ _) =>
             apply keeps_nt_on_error_or_log_return
         | |- keeps_nt_on_error (update_mode_flags 0 _ ;; _) =>
             apply keeps_nt_on_error_flags
         | |- keeps_nt_on_error (bind _ _) =>
             apply keeps_nt_on_error_bind; [|intros ?]
         end.

(** X3: an on-script that fails leaves the low-power-mode bit set on both
    links, as its first two assignments wrote it: the two clearing
    assignments at its end are not reached.  Nothing else in the driver
    structure has changed. *)
Theorem nt35950_on_error_leaves_lpm_set (w : world) (r : Z) (w' : world) :
  nt35950_on w = Ret r w' ->
  r <> 0 ->
  exists l0 l1,
    dsi0 (nt w) = Some l0 /\ dsi1 (nt w) = Some l1 /\
    nt w' = set_dsi (set_dsi (nt w) 0 (Some (set_mode_flags l0 (lpm_set (mode_flags l0)))))
                    1 (Some (set_mode_flags l1 (lpm_set (mode_flags l1)))) /\
    lpm_flag (set_mode_flags l0 (lpm_set (mode_flags l0))) = MIPI_DSI_MODE_LPM /\
    lpm_flag (set_mode_flags l1 (lpm_set (mode_flags l1))) = MIPI_DSI_MODE_LPM.
Proof.
  intros H Hr.
  assert (Hneg : r < 0) by (pose proof (nt35950_on_nonpos w r w' H); lia).
  unfold nt35950_on in H.
  script_flags H l0 Hl0. script_flags H l1 Hl1.
  match type of H with
  | ?tail _ = _ => assert (Htail : keeps_nt_on_error tail)
  end.
  { unfold dsi_dcs_write_seq, nt35950_set_cmd2_page,
      nt35950_set_data_compression, nt35950_set_scaler, nt35950_set_dispout,
      nt35950_inject_black_image, mipi_dsi_dcs_write_buffer,
      mipi_dsi_dcs_set_tear_on, mipi_dsi_dcs_set_tear_scanline,
      mipi_dsi_dcs_exit_sleep_mode, mipi_dsi_dcs_set_display_on, msleep.
    keeps_nt_script. }
  pose proof (Htail _ _ _ H Hneg) as Hnt.
  rewind in Hl1. cbn [get_dsi set_dsi dsi0 dsi1] in Hl0, Hl1.
  exists l0, l1. split; [exact Hl0|]. split; [exact Hl1|].
  split; [rewrite Hnt; rewind; reflexivity|].
  unfold lpm_flag. cbn [set_mode_flags mode_flags]. split; apply lpm_set_flag.
Qed.

(** *** The lifecycle as a whole *)

Lemma powered_up_use_count (w : world) (i : nat) :
  use_count (powered_up w) i =
    if (i <? 6)%nat then S (use_count w i) else use_count w i.
Proof.
  unfold powered_up, enable_count. cbn [use_count].
  do 6 (destruct i as [|i]; [reflexivity|]). reflexivity.
Qed.

Lemma prepare_ret0_inv (w w' : world) :
  prepared (nt w) = false ->
  nt35950_prepare w = Ret 0 w' ->
  exists d l0 l1,
    desc (nt w) = Some d /\ dsi0 (nt w) = Some l0 /\ dsi1 (nt w) = Some l1 /\
    trace w' = trace w ++ power_up_events ++ reset_pulse_events ++ on_script_events d /\
    (forall i, use_count w' i =
               if (i <? 6)%nat then S (use_count w i) else use_count w i) /\
    reset_value w' = 1 /\
    prepared (nt w') = true /\
    dsi0 (nt w') = Some (set_mode_flags l0 (lpm_clear (lpm_set (mode_flags l0)))) /\
    dsi1 (nt w') = Some (set_mode_flags l1 (lpm_clear (lpm_set (mode_flags l1)))).
Proof.
  intros Hp H.
  destruct (nt35950_prepare_cases w Hp) as [(r & w1 & H1 & Hr & _)|Hup].
  - rewrite H1 in H. injection H as -> _. contradiction.
  - rewrite Hup in H. unfold prepare_script in H.
    apply bind_ret_inv in H. destruct H as (r1 & w1 & Hon & H).
    pose proof (nt35950_on_nonpos _ _ _ Hon) as Hle.
    destruct (Z.ltb_spec r1 0) as [Hneg|Hpos].
    + unfold bind, dev_err, emit, regulator_bulk_disable, ret in H.
      injection H as -> _. lia.
    + assert (r1 = 0) by lia. subst r1.
      pose proof (nt35950_on_respects (powered_up w)) as Hrel.
      rewrite Hon in Hrel. cbn [final] in Hrel.
      destruct Hrel as [_ Hreset Hcount _ _ _ _].
      apply nt35950_on_ret0 in Hon.
      destruct Hon as (d & l0 & l1 & Hd & Hl0 & Hl1 & Ht & Hc0 & Hc1).
      unfold bind, put_prepared, ret in H. injection H as <-.
      exists d, l0, l1.
      cbn [set_nt set_prepared nt use_count reset_value trace prepared dsi0 dsi1].
      repeat split; try assumption.
      * rewrite Ht. unfold powered_up. cbn [trace]. rewrite <- !app_assoc. reflexivity.
      * intros i. rewrite Hcount. apply powered_up_use_count.
Qed.

Lemma prepare_result_state (w : world) (r : Z) (w' : world) :
  nt35950_prepare w = Ret r w' ->
  (prepared (nt w') = true <-> r = 0) /\
  (r <> 0 -> nt35950_unprepare w' = Ret 0 w').
Proof.
  intros H.
  assert (Hiff : prepared (nt w') = true <-> r = 0).
  { destruct (prepared (nt w)) eqn:Hp.
    - destruct (prepare_when_prepared w r w' Hp H) as [-> ->]. tauto.
    - destruct (nt35950_prepare_cases w Hp) as [(r1 & w1 & H1 & Hr & Hnt & _)|Hup].
      + rewrite H1 in H. injection H as <- <-. rewrite Hnt, Hp.
        split; [discriminate|contradiction].
      + rewrite Hup in H. apply prepare_script_ret in H.
        destruct H as [(Hneg & Hprep & _)|(H0 & Hprep & _)].
        * unfold powered_up in Hprep. cbn [nt] in Hprep. rewrite Hprep, Hp.
          split; [discriminate|lia].
        * tauto. }
  split; [exact Hiff|].
  intros Hr. unfold nt35950_unprepare, bind, get_prepared.
  destruct (prepared (nt w')); [tauto|reflexivity].
Qed.

(** X4: [prepare] returns 0 on an unprepared panel only after the whole
    sequence: the six enables with their waits, the reset pulse, and the 19
    transfers of the on-script with its two waits, and nothing else.  Each
    regulator then has one more enable outstanding, the reset line is 1,
    [prepared] is set, and on both links the low-power-mode bit is clear
    with every other field as before. *)
Theorem nt35950_prepare_success (w w' : world) :
  prepared (nt w) = false ->
  nt35950_prepare w = Ret 0 w' ->
  exists d l0 l1,
    desc (nt w) = Some d /\ dsi0 (nt w) = Some l0 /\ dsi1 (nt w) = Some l1 /\
    trace w' = trace w ++ power_up_events ++ reset_pulse_events ++ on_script_events d /\
    (forall i, use_count w' i =
               if (i <? 6)%nat then S (use_count w i) else use_count w i) /\
    reset_value w' = 1 /\
    prepared (nt w') = true /\
    dsi0 (nt w') = Some (set_mode_flags l0 (lpm_clear (lpm_set (mode_flags l0)))) /\
    dsi1 (nt w') = Some (set_mode_flags l1 (lpm_clear (lpm_set (mode_flags l1)))).
Proof. exact (prepare_ret0_inv w w'). Qed.

(** X5: the value [prepare] returns tells the state it leaves: [prepared]
    is set afterwards exactly when 0 was returned.  So after a [prepare]
    that failed, [unprepare] is the call that does nothing: it returns 0 and
    disables no regulator. *)
Theorem nt35950_prepare_result_and_state (w : world) (r : Z) (w' : world) :
  nt35950_prepare w = Ret r w' ->
  (prepared (nt w') = true <-> r = 0) /\
  (r <> 0 -> nt35950_unprepare w' = Ret 0 w').
Proof. exact (prepare_result_state w r w'). Qed.

(** X6: [prepare] that returned 0 followed by [unprepare] is a round trip
    for the power state: [unprepare] returns 0, every regulator has as many
    enables outstanding as before [prepare], the reset line is 0 and the
    panel is unprepared again. *)
Theorem nt35950_prepare_unprepare_round_trip (w w1 : world) :
  prepared (nt w) = false ->
  nt35950_prepare w = Ret 0 w1 ->
  exists w2,
    nt35950_unprepare w1 = Ret 0 w2 /\
    (forall i, use_count w2 i = use_count w i) /\
    reset_value w2 = 0 /\
    prepared (nt w2) = false.
Proof.
  intros Hp H.
  destruct (prepare_ret0_inv w w1 Hp H)
    as (d & l0 & l1 & _ & _ & _ & _ & Hcount & _ & Hp1 & H0 & H1).
  assert (P0 : present (dsi0 (nt w1)) = true) by (rewrite H0; reflexivity).
  assert (P1 : present (dsi1 (nt w1)) = true) by (rewrite H1; reflexivity).
  destruct (nt35950_unprepare_prepared w1 Hp1 P0 P1)
    as (w2 & script & Hun & _ & _ & Hreset & Hc2 & Hp2).
  exists w2. repeat split; try assumption.
  intros i. rewrite Hc2. unfold bulk_disable_count, NT35950_VREG_MAX.
  rewrite Hcount. destruct (i <? 6)%nat; reflexivity.
Qed.

(** X7: while the panel is prepared the reset line is 1 and the
    low-power-mode bit is clear on both links, on every world the lifecycle
    can produce. *)
Theorem reachable_prepared_state (w : world) :
  reachable w ->
  prepared (nt w) = true ->
  reset_value w = 1 /\
  exists l0 l1,
    dsi0 (nt w) = Some l0 /\ dsi1 (nt w) = Some l1 /\
    lpm_flag l0 = 0 /\ lpm_flag l1 = 0.
Proof.
  induction 1 as [w Hp|w r w' Hreach IH Hret|w r w' Hreach IH Hret]; intros Hp'.
  - congruence.
  - destruct (prepared (nt w)) eqn:Hp.
    + destruct (prepare_when_prepared w r w' Hp Hret) as [_ ->]. auto.
    + assert (r = 0)
        by (apply (prepare_result_state w r w' Hret); exact Hp').
      subst r.
      destruct (prepare_ret0_inv w w' Hp Hret)
        as (d & l0 & l1 & _ & _ & _ & _ & _ & Hreset & _ & H0 & H1).
      split; [exact Hreset|]. do 2 eexists.
      split; [exact H0|]. split; [exact H1|].
      unfold lpm_flag. cbn [set_mode_flags mode_flags]. split; apply lpm_clear_flag.
  - destruct (prepared (nt w)) eqn:Hp.
    + destruct (reachable_links w Hreach Hp) as [H0 H1].
      destruct (nt35950_unprepare_prepared w Hp H0 H1)
        as (w2 & script & Hun & _ & _ & _ & _ & Hf).
      rewrite Hun in Hret. injection Hret as _ <-. congruence.
    + destruct (unprepare_when_unprepared w r w' Hp Hret) as [_ ->]. congruence.
Qed.

(** *** [prepare] when a rail refuses *)

Ltac rail_refuses n E :=
  left; exists n; do 3 eexists;
  split; [reflexivity|];
  split; [reflexivity|];
  cbn [firstn power_up_events enabled_by app]; rewrite ?app_nil_r;
  split; [rewrite <- ?app_assoc in E; cbn [app] in E; exact E|];
  split; [rewrite <- ?app_assoc; cbn [app]; reflexivity|];
  cbn [log trace nt use_count reset_value];
  repeat split; rewrite <- ?app_assoc; reflexivity.

Ltac rail_try n :=
  match goal with
  | |- context [regulator_enable_result ?t ?i =? 0] =>
      let E := fresh "E" in
      destruct (Z.eqb_spec (regulator_enable_result t i) 0) as [E|E];
      cbn [log nt use_count reset_value trace]; [ | rail_refuses n E ]
  end.

(** X8: on an unprepared panel [prepare] either stops at the first
    regulator that refuses or gets to the script with all six up.  When the
    enable at position [n] of the power-up sequence refuses, [prepare]
    returns its value at once: the trace has grown by the sequence up to
    and including that enable, the regulators enabled before it keep their
    enables, nothing is disabled, and the reset line and the driver
    structure are untouched. *)
Theorem nt35950_prepare_rail_dichotomy (w : world) :
  prepared (nt w) = false ->
  (exists n idx r w',
     nth_error power_up_events n = Some (EvRegulatorEnable idx) /\
     r = regulator_enable_result (trace w ++ firstn n power_up_events) idx /\
     r <> 0 /\
     nt35950_prepare w = Ret r w' /\
     trace w' = trace w ++ firstn (S n) power_up_events /\
     use_count w' = enabled_by (firstn n power_up_events) (use_count w) /\
     nt w' = nt w /\ reset_value w' = reset_value w)
  \/
  ((forall n idx,
      nth_error power_up_events n = Some (EvRegulatorEnable idx) ->
      regulator_enable_result (trace w ++ firstn n power_up_events) idx = 0) /\
   nt35950_prepare w = prepare_script (powered_up w)).
Proof.
  intros Hp.
  unfold nt35950_prepare, get_prepared, or_return_nz, regulator_enable,
    nt35950_reset, gpiod_set_value_cansleep, usleep_range, emit, bind, ret.
  rewrite Hp. cbn [log nt use_count reset_value trace].
  rail_try 0%nat. rail_try 2%nat. rail_try 4%nat.
  rail_try 5%nat. rail_try 7%nat. rail_try 8%nat.
  right. split.
  - intros n idx Hn.
    repeat match goal with
           | E : regulator_enable_result ((_ ++ _) ++ _) _ = 0 |- _ =>
               rewrite <- app_assoc in E; cbn [app] in E
           end.
    do 10 (destruct n as [|n];
           [cbn [nth_error power_up_events] in Hn; try discriminate Hn;
            injection Hn as <-; cbn [firstn power_up_events];
            rewrite ?app_nil_r; assumption|]).
    destruct n; discriminate Hn.
  - unfold prepare_script, bind, ret.
    match goal with
    | |- context [nt35950_on ?W] => replace W with (powered_up w)
    end; [reflexivity|].
    unfold powered_up, power_up_events, reset_pulse_events, log.
    cbn [nt use_count reset_value trace].
    f_equal. rewrite <- ?app_assoc. reflexivity.
Qed.

(** *** Binding: the regulator init, the links, the early returns *)

(** X9: what the regulator init returns.  A failed bulk acquisition is
    logged and its error returned.  Otherwise nothing is logged, and the
    value is 0 exactly when one of the six rails reports its range
    (1.75-1.95 V for vddio and tvddio, 2.8-3.3 V for tavdd, 5.2-5.9 V for
    avdd and avee, 1.3-1.4 V for dvdd) unsupported; when all are supported
    it is what the check of dvdd returned, not 0. *)
Theorem nt35950_sharp_init_vregs_result (w : world) :
  let g := devm_regulator_bulk_get_result regs in
  let c := regulator_is_supported_voltage_result regs in
  exists r w1,
    nt35950_sharp_init_vregs w = Ret r w1 /\
    (g < 0 ->
     r = g /\
     trace w1 = trace w ++ [EvDevErr "Failed to get regulators: %d\n" g]) /\
    (0 <= g ->
     trace w1 = trace w /\
     (r = 0 <->
      c 0%nat 1750000 1950000 = 0 \/ c 1%nat 1750000 1950000 = 0 \/
      c 2%nat 2800000 3300000 = 0 \/ c 3%nat 5200000 5900000 = 0 \/
      c 4%nat 5200000 5900000 = 0 \/ c 5%nat 1300000 1400000 = 0) /\
     (r <> 0 -> r = c 5%nat 1300000 1400000)).
Proof using regs.
  clear regulator_enable_result dsi_transfer_result.
  intros g c. subst g c.
  destruct w as [[d0 d1 v gp ds pr] uc rv tr].
  unfold nt35950_sharp_init_vregs, set_supply, or_log_return, or_return_z,
    devm_regulator_bulk_get, regulator_is_supported_voltage, dev_err, emit,
    bind, ret.
  cbn [log set_nt nt use_count reset_value trace dsi0 dsi1 vregs reset_gpio
       desc prepared].
  destruct (Z.ltb_spec (devm_regulator_bulk_get_result regs) 0) as [Hg|Hg].
  - do 2 eexists. split; [reflexivity|]. split; [auto|lia].
  - repeat match goal with
           | |- context [?x =? 0] => destruct (Z.eqb_spec x 0)
           end;
      do 2 eexists; (split; [reflexivity|]); (split; [lia|]); intros _;
      (split; [reflexivity|]); (split; [|congruence]); tauto.
Qed.

Lemma script_rel_same (w w' : world) :
  trace w' = trace w -> reset_value w' = reset_value w ->
  use_count w' = use_count w -> prepared (nt w') = prepared (nt w) ->
  desc (nt w') = desc (nt w) -> dsi0 (nt w') = dsi0 (nt w) ->
  dsi1 (nt w') = dsi1 (nt w) -> script_rel w w'.
Proof.
  intros Ht Hr Hc Hp Hd H0 H1. constructor; try assumption.
  - exists []. split; [now rewrite app_nil_r|constructor].
  - now rewrite H0.
  - now rewrite H1.
Qed.

Lemma respects_set_supply i name : respects script_rel (set_supply i name).
Proof. intros w. apply script_rel_same; reflexivity. Qed.

(** The regulator init adds log lines at most and keeps everything a script
    keeps. *)
Lemma nt35950_sharp_init_vregs_respects : respects script_rel nt35950_sharp_init_vregs.
Proof.
  unfold nt35950_sharp_init_vregs, or_log_return, or_return_z,
    devm_regulator_bulk_get, regulator_is_supported_voltage, dev_err.
  repeat first [ apply respects_set_supply
               | apply (respects_ret script_rel script_rel_refl)
               | apply respects_emit; exact I
               | apply respects_if
               | apply (respects_bind script_rel script_rel_trans); [|intros ?] ].
Qed.

(** The world in which [probe] looks up the descriptor: a zeroed structure
    with the six supply names, the hardware as it was, log lines at most. *)
Lemma nt35950_probe_prefix (dsi : mipi_dsi_device) (w : world) :
  devm_kzalloc_ok env = true ->
  exists w2 k,
    nt35950_probe dsi w = k w2 /\
    k = (put_desc (of_device_get_match_data_result env) ;;
         match of_device_get_match_data_result env with
         | None => ret (- ENODEV)
         | Some d =>
           match devm_gpiod_get_result env with
           | GpiodErr code =>
               dev_err "Failed to get reset-gpios: %d\n" code ;;
               ret code
           | GpiodDesc =>
               put_reset_gpio ;;
               if is_dual_dsi d then
                 if negb (of_graph_get_remote_node_ok env) then
                   dev_err "Cannot get secondary DSI node.\n" 0 ;;
                   ret (- ENODEV)
                 else if negb (of_find_mipi_dsi_host_by_node_ok env) then
                   dev_err "Cannot get secondary DSI host\n" 0 ;;
                   ret (- EPROBE_DEFER)
                 else
                   put_dsi 1 (mipi_dsi_device_register_full_result env) ;;
                   match mipi_dsi_device_register_full_result env with
                   | None =>
                       dev_err "Cannot get secondary DSI node\n" 0 ;;
                       ret (- ENODEV)
                   | Some _ => probe_finish dsi 2
                   end
               else probe_finish dsi 1
           end
         end) /\
    nt w2 = {| dsi0 := None; dsi1 := None;
               vregs := ["vddio"; "tvddio"; "tavdd"; "avdd"; "avee"; "dvdd"]%string;
               reset_gpio := false; desc := None; prepared := false |} /\
    use_count w2 = use_count w /\ reset_value w2 = reset_value w /\
    exists logs, trace w2 = trace w ++ logs /\ Forall script_event logs.
Proof.
  intros Hk. unfold nt35950_probe. rewrite Hk. cbn [negb].
  rewrite (bind_ret_step devm_kzalloc _ w tt (set_nt w nt35950_zero) eq_refl).
  destruct (nt35950_sharp_init_vregs_returns (set_nt w nt35950_zero))
    as (r & w1 & E & Hnt & Hc & Hr).
  pose proof (nt35950_sharp_init_vregs_respects (set_nt w nt35950_zero)) as Hrel.
  rewrite E in Hrel. cbn [final] in Hrel.
  destruct Hrel as [(logs & Ht & Hf) _ _ _ _ _ _].
  rewrite (bind_ret_step _ _ _ _ _ E).
  cbn [set_nt nt use_count reset_value trace] in Hnt, Hc, Hr, Ht.
  destruct (negb (r =? 0) && negb (r =? - EPROBE_DEFER)).
  - eexists. eexists. split; [apply bind_ret_step; reflexivity|].
    split; [reflexivity|]. cbn [log nt use_count reset_value trace].
    split; [rewrite Hnt; reflexivity|]. split; [exact Hc|]. split; [exact Hr|].
    eexists. split; [rewrite Ht, <- app_assoc; reflexivity|].
    apply Forall_app. split; [exact Hf|]. repeat constructor.
  - eexists. eexists. split; [apply bind_ret_step; reflexivity|].
    split; [reflexivity|].
    split; [rewrite Hnt; reflexivity|]. split; [exact Hc|]. split; [exact Hr|].
    exists logs. auto.
Qed.

Ltac probe_exec :=
  cbv beta iota zeta delta
    [probe_finish attach_links configure_link or_log_return dev_err_probe
     put_desc put_reset_gpio put_dsi read_desc update_dsi mipi_dsi_attach
     gpiod_set_value_cansleep dev_err emit bind ret log set_nt set_dsi get_dsi
     set_mode_flags nt use_count reset_value trace dsi0 dsi1 vregs reset_gpio
     desc prepared is_video_mode is_dual_dsi num_lanes lanes format mode_flags].

Ltac probe_branch :=
  match goal with
  | |- context [if ?c then _ else _] => destruct c
  | |- context [match ?x with Some _ => _ | None => _ end] => destruct x
  | |- context [match ?x with GpiodDesc => _ | GpiodErr _ => _ end] => destruct x
  end.

(** X10: [probe] never dereferences a NULL pointer: on every environment it
    returns.  It enables no regulator, writes the reset line at most to 0,
    and a structure it has allocated is left unprepared. *)
Theorem nt35950_probe_returns (dsi : mipi_dsi_device) (w : world) :
  exists r w',
    nt35950_probe dsi w = Ret r w' /\
    use_count w' = use_count w /\
    (reset_value w' = reset_value w \/ reset_value w' = 0) /\
    (devm_kzalloc_ok env = true -> prepared (nt w') = false).
Proof.
  destruct (devm_kzalloc_ok env) eqn:Hk.
  - destruct (nt35950_probe_prefix dsi w Hk)
      as (w2 & k & Hprobe & -> & Hnt & Hc & Hr & _).
    rewrite Hprobe. rewrite <- Hc, <- Hr. clear Hprobe Hc Hr.
    destruct w2 as [n2 uc2 rv2 tr2]. cbn [nt use_count reset_value] in *. subst n2.
    repeat (probe_exec; probe_branch);
      probe_exec; do 2 eexists; (split; [reflexivity|]); auto.
  - unfold nt35950_probe. rewrite Hk. cbn [negb]. unfold ret.
    do 2 eexists. split; [reflexivity|]. split; [reflexivity|].
    split; [auto|discriminate].
Qed.

(** X11: when everything [probe] asks for is there, it returns 0 with every
    link of the panel configured alike: the lane count of the descriptor,
    RGB888, and the mode flags EOT packet, non-continuous clock and
    low-power mode, with video mode on top for a video-mode descriptor.  A
    single-link panel has no secondary link.  After the log lines of the
    regulator init the calls are: panel added, link 0 attached, link 1
    attached for a dual-link panel, reset line written 0. *)
Theorem nt35950_probe_configures_links
    (dsi : mipi_dsi_device) (w : world) (d : nt35950_panel_desc) :
  devm_kzalloc_ok env = true ->
  of_device_get_match_data_result env = Some d ->
  devm_gpiod_get_result env = GpiodDesc ->
  (is_dual_dsi d = true ->
   of_graph_get_remote_node_ok env = true /\
   of_find_mipi_dsi_host_by_node_ok env = true /\
   mipi_dsi_device_register_full_result env <> None) ->
  drm_panel_of_backlight_result env = 0 ->
  (forall i, 0 <= mipi_dsi_attach_result env i) ->
  let link := {| lanes := num_lanes d; format := MIPI_DSI_FMT_RGB888;
                 mode_flags := probe_mode_flags d |} in
  exists w' logs,
    nt35950_probe dsi w = Ret 0 w' /\
    dsi0 (nt w') = Some link /\
    dsi1 (nt w') = (if is_dual_dsi d then Some link else None) /\
    trace w' = trace w ++ logs ++
                 [EvPanelAdd; EvDsiAttach 0] ++
                 (if is_dual_dsi d then [EvDsiAttach 1] else []) ++ [EvGpioSet 0] /\
    Forall script_event logs.
Proof.
  intros Hk Hmd Hgpio Hdual Hbl Hatt link. subst link.
  destruct (nt35950_probe_prefix dsi w Hk)
    as (w2 & k & Hprobe & -> & Hnt & _ & _ & logs & Ht & Hlogs).
  rewrite Hprobe. clear Hprobe. rewrite Hmd, Hgpio.
  destruct w2 as [n2 uc2 rv2 tr2]. cbn [nt trace] in *. subst n2 tr2.
  destruct d as [mn nl sram vm dual]. cbn [is_dual_dsi num_lanes] in *.
  unfold probe_finish, probe_mode_flags. rewrite Hbl. cbn [is_video_mode].
  destruct dual.
  - destruct (Hdual eq_refl) as (Hrn & Hhost & Hrf).
    rewrite Hrn, Hhost.
    destruct (mipi_dsi_device_register_full_result env) as [l1|]; [|congruence].
    destruct vm; probe_run;
      (destruct (Z.ltb_spec (mipi_dsi_attach_result env 0) 0) as [Hneg|_];
       [specialize (Hatt 0%nat); lia|]); probe_run;
      (destruct (Z.ltb_spec (mipi_dsi_attach_result env 1) 0) as [Hneg|_];
       [specialize (Hatt 1%nat); lia|]); probe_run;
      eexists; exists logs; (split; [reflexivity|]);
      (split; [reflexivity|]); (split; [reflexivity|]);
      (split; [|exact Hlogs]); rewrite <- ?app_assoc; reflexivity.
  - destruct vm; probe_run;
      (destruct (Z.ltb_spec (mipi_dsi_attach_result env 0) 0) as [Hneg|_];
       [specialize (Hatt 0%nat); lia|]); probe_run;
      eexists; exists logs; (split; [reflexivity|]);
      (split; [reflexivity|]); (split; [reflexivity|]);
      (split; [|exact Hlogs]); rewrite <- ?app_assoc; reflexivity.
Qed.

(** X12: a dual-link panel whose secondary link cannot be set up.  With no
    remote node in the device tree [probe] returns -ENODEV; with the node
    there but its host not registered, -EPROBE_DEFER; with the host there
    but no device registered, -ENODEV.  In each case the panel has not been
    added, no link is attached, link 0 is not recorded, and the reset line
    and the regulators are as they were: the trace has grown by log lines
    only. *)
Theorem nt35950_probe_secondary_missing
    (dsi : mipi_dsi_device) (w : world) (d : nt35950_panel_desc) :
  devm_kzalloc_ok env = true ->
  of_device_get_match_data_result env = Some d ->
  devm_gpiod_get_result env = GpiodDesc ->
  is_dual_dsi d = true ->
  of_graph_get_remote_node_ok env = false \/
  of_find_mipi_dsi_host_by_node_ok env = false \/
  mipi_dsi_device_register_full_result env = None ->
  exists w' logs,
    nt35950_probe dsi w =
      Ret (if negb (of_graph_get_remote_node_ok env) then - ENODEV
           else if negb (of_find_mipi_dsi_host_by_node_ok env) then - EPROBE_DEFER
           else - ENODEV) w' /\
    dsi0 (nt w') = None /\ dsi1 (nt w') = None /\
    reset_value w' = reset_value w /\ use_count w' = use_count w /\
    trace w' = trace w ++ logs /\ Forall script_event logs.
Proof.
  intros Hk Hmd Hgpio Hdual Hmiss.
  destruct (nt35950_probe_prefix dsi w Hk)
    as (w2 & k & Hprobe & -> & Hnt & Hc & Hr & logs & Ht & Hlogs).
  rewrite Hprobe. clear Hprobe. rewrite Hmd, Hgpio, Hdual.
  destruct w2 as [n2 uc2 rv2 tr2]. cbn [nt trace use_count reset_value] in *.
  subst n2 tr2 uc2 rv2.
  destruct (of_graph_get_remote_node_ok env);
    [destruct (of_find_mipi_dsi_host_by_node_ok env);
     [destruct (mipi_dsi_device_register_full_result env) as [l1|] eqn:Hrf;
      [destruct Hmiss as [H|[H|H]]; discriminate H|]|]|];
    probe_run; eexists; eexists; (split; [reflexivity|]);
    cbn [nt dsi0 dsi1 reset_value use_count trace];
    repeat (split; [reflexivity|]);
    (split; [rewrite <- app_assoc; reflexivity|]);
    (apply Forall_app; split; [exact Hlogs|repeat constructor]).
Qed.

(** X13: when attaching link 0 fails, [probe] logs the error and returns
    it.  By then the panel has been added and stays added; link 1 is not
    attached and the reset line is not written. *)
Theorem nt35950_probe_attach_failure
    (dsi : mipi_dsi_device) (w : world) (d : nt35950_panel_desc) :
  devm_kzalloc_ok env = true ->
  of_device_get_match_data_result env = Some d ->
  devm_gpiod_get_result env = GpiodDesc ->
  (is_dual_dsi d = true ->
   of_graph_get_remote_node_ok env = true /\
   of_find_mipi_dsi_host_by_node_ok env = true /\
   mipi_dsi_device_register_full_result env <> None) ->
  drm_panel_of_backlight_result env = 0 ->
  mipi_dsi_attach_result env 0%nat < 0 ->
  exists w' logs,
    nt35950_probe dsi w = Ret (mipi_dsi_attach_result env 0%nat) w' /\
    trace w' = trace w ++ logs ++
                 [EvPanelAdd; EvDsiAttach 0;
                  EvDevErr "Failed to attach to DSI%d host: %d\n"
                           (mipi_dsi_attach_result env 0%nat)] /\
    Forall script_event logs /\
    reset_value w' = reset_value w /\
    present (dsi0 (nt w')) = true.
Proof.
  intros Hk Hmd Hgpio Hdual Hbl Hatt.
  destruct (nt35950_probe_prefix dsi w Hk)
    as (w2 & k & Hprobe & -> & Hnt & _ & Hr & logs & Ht & Hlogs).
  rewrite Hprobe. clear Hprobe. rewrite Hmd, Hgpio.
  destruct w2 as [n2 uc2 rv2 tr2]. cbn [nt trace reset_value] in *. subst n2 tr2 rv2.
  destruct d as [mn nl sram vm dual]. cbn [is_dual_dsi num_lanes] in *.
  unfold probe_finish. rewrite Hbl.
  destruct dual.
  - destruct (Hdual eq_refl) as (Hrn & Hhost & Hrf).
    rewrite Hrn, Hhost.
    destruct (mipi_dsi_device_register_full_result env) as [l1|]; [|congruence].
    destruct vm; probe_run;
      (destruct (Z.ltb_spec (mipi_dsi_attach_result env 0) 0) as [_|Hpos]; [|lia]);
      probe_run; eexists; exists logs; (split; [reflexivity|]);
      (split; [rewrite <- ?app_assoc; reflexivity|]); auto.
  - destruct vm; probe_run;
      (destruct (Z.ltb_spec (mipi_dsi_attach_result env 0) 0) as [_|Hpos]; [|lia]);
      probe_run; eexists; exists logs; (split; [reflexivity|]);
      (split; [rewrite <- ?app_assoc; reflexivity|]); auto.
Qed.

(** *** The display-output byte *)

(** X14: the display-output control write is the register 0xB4 with one
    parameter byte in which bit 0 is the SRAM flag of the descriptor, bit 4
    its video-mode flag, and no other bit is set.  It is one transfer on
    link 0, whose result is returned. *)
Theorem nt35950_set_dispout_byte (w : world) (r : Z) (w' : world) :
  nt35950_set_dispout w = Ret r w' ->
  exists d b,
    desc (nt w) = Some d /\
    trace w' = trace w ++ [EvDsiWrite 0 (Buffer [0xb4; b])] /\
    r = dsi_transfer_result (trace w) 0%nat (Buffer [0xb4; b]) /\
    Z.testbit b 0 = enable_sram d /\
    Z.testbit b 4 = is_video_mode d /\
    Z.land b (Z.lnot 0x11) = 0 /\
    nt w' = nt w.
Proof.
  unfold nt35950_set_dispout, read_desc, mipi_dsi_dcs_write_buffer,
    dsi_transfer, bind.
  destruct (desc (nt w)) as [d|]; [|discriminate].
  cbn [get_dsi]. destruct (dsi0 (nt w)); [|discriminate].
  intros H. injection H as <- <-.
  exists d. destruct d as [mn nl [] [] dual]; cbn [is_video_mode enable_sram];
    eexists; repeat split; reflexivity.
Qed.

(** *** Unbinding *)

(** X15: on a bound panel [remove] returns 0 whatever the detaches
    returned.  It detaches link 0 first and removes the panel last; the
    secondary link is detached and unregistered exactly when there is one,
    and it is unregistered even when its detach failed.  A failed detach is
    logged with its error and changes nothing else. *)
Theorem nt35950_remove_releases (detach_result : nat -> Z) (p : nt35950) :
  dsi0 p <> None ->
  exists calls,
    nt35950_remove detach_result p = Some (0, calls) /\
    filter (fun c => match c with RmDevErr _ _ => false | _ => true end) calls
      = [RmDetach 0] ++
        (if present (dsi1 p) then [RmDetach 1; RmUnregister 1] else []) ++
        [RmPanelRemove] /\
    (forall msg c, In (RmDevErr msg c) calls ->
       c < 0 /\ exists link, c = detach_result link /\ In (RmDetach link) calls) /\
    (forall link, In (RmDetach link) calls -> detach_result link < 0 ->
       exists msg, In (RmDevErr msg (detach_result link)) calls).
Proof.
  intros H0. unfold nt35950_remove.
  destruct (dsi0 p); [clear H0|congruence].
  destruct (dsi1 p) as [l1|]; cbn [present];
    destruct (Z.ltb_spec (detach_result 0%nat) 0) as [Ha|Ha];
    try (destruct (Z.ltb_spec (detach_result 1%nat) 0) as [Hb|Hb]);
    eexists; (split; [reflexivity|]); cbn [app filter In];
    (split; [reflexivity|]); split.
  all: try (intros msg c Hin; decompose [or] Hin; clear Hin;
            try discriminate; try contradiction;
            match goal with
            | H : RmDevErr _ _ = RmDevErr _ _ |- _ => injection H as _ <-
            end;
            (split; [assumption|]);
            first [ exists 0%nat; split; [reflexivity|tauto]
                  | exists 1%nat; split; [reflexivity|tauto] ]).
  all: intros link Hin Hneg; decompose [or] Hin; clear Hin;
    try discriminate; try contradiction;
    match goal with
    | H : RmDetach _ = RmDetach _ |- _ => injection H as <-
    end;
    try lia; eexists; tauto.
Qed.


End Driver.

(** ** The properties on concrete panels *)

Ltac run := vm_compute; reflexivity.
Ltac runs := repeat match goal with |- _ /\ _ => split end; run.

(** Page 3 on a bound dual-link panel. *)
Lemma nt35950_set_cmd2_page_one_write_witness :
  nt35950_set_cmd2_page ex_transfer_ok 3 (ex_world (ex_dual 0)) =
    Ret 6 (log (ex_world (ex_dual 0))
               (EvDsiWrite 0 (Buffer [0xF0; 0x55; 0xAA; 0x52; 0x08; 3]))).
Proof.
  apply (nt35950_set_cmd2_page_one_write ex_transfer_ok 3 (ex_world (ex_dual 0))).
  - lia.
  - discriminate.
Defined.

(** A prepared and an unprepared dual-link panel. *)
Lemma prepare_unprepare_idempotent_witness :
  let wp := ex_world (set_prepared (ex_dual 0) true) in
  let wu := ex_world (ex_dual 0) in
  nt35950_prepare ex_LPM ex_enable_ok ex_transfer_ok wp = Ret 0 wp /\
  nt35950_unprepare ex_LPM ex_transfer_ok wu = Ret 0 wu.
Proof.
  split.
  - apply (prepare_unprepare_idempotent ex_LPM ex_enable_ok ex_transfer_ok
             (ex_world (set_prepared (ex_dual 0) true))).
    reflexivity.
  - apply (prepare_unprepare_idempotent ex_LPM ex_enable_ok ex_transfer_ok
             (ex_world (ex_dual 0))).
    reflexivity.
Defined.

(** C1 fails on the code: vddio enables, dvdd refuses with -EINVAL, and
    [prepare] returns -EINVAL at once; no bulk disable is issued and vddio
    keeps its enable. *)
Lemma nt35950_prepare_rail_failure_leaves_rail_on :
  let w := ex_world (ex_dual 0) in
  let o := nt35950_prepare ex_LPM ex_enable_dvdd_fails ex_transfer_ok w in
  o = Ret (-22) (final o) /\
  trace (final o) =
    [EvRegulatorEnable 0; EvUsleepRange 2000 5000; EvRegulatorEnable 5] /\
  use_count w 0%nat = 0%nat /\
  use_count (final o) 0%nat = 1%nat /\
  prepared (nt (final o)) = false.
Proof.
  cbv zeta. runs.
Qed.

(** The other failure path of [prepare]: the six rails come up, the first
    transfer of the on-script fails with -EIO, and [prepare] returns -EIO
    after the bulk disable, every regulator off again. *)
Lemma nt35950_prepare_script_failure_example :
  let w := ex_world (ex_dual 0) in
  let o := nt35950_prepare ex_LPM ex_enable_ok ex_transfer_fails w in
  o = Ret (-5) (final o) /\
  map (use_count (final o)) [0; 1; 2; 3; 4; 5]%nat = [0; 0; 0; 0; 0; 0]%nat /\
  last (trace (final o)) EvPanelAdd = EvRegulatorBulkDisable 6 /\
  prepared (nt (final o)) = false.
Proof.
  cbv zeta. runs.
Qed.

(** C2 fails on the code: [display off] fails with -EIO; the off-script
    logs it and returns -EIO; [enter sleep] is never sent and the
    low-power-mode bit stays clear on both links. *)
Lemma nt35950_off_display_off_failure_aborts :
  let w := ex_world (ex_dual 0) in
  let o := nt35950_off ex_LPM ex_transfer_display_off_fails w in
  o = Ret (-5) (final o) /\
  trace (final o) =
    [EvDsiWrite 0 SetDisplayOff;
     EvDevErr "Failed to set display off: %d\n" (-5)] /\
  ~ In (EvDsiWrite 0 EnterSleepMode) (trace (final o)) /\
  option_map (lpm_flag ex_LPM) (dsi0 (nt (final o))) = Some 0 /\
  option_map (lpm_flag ex_LPM) (dsi1 (nt (final o))) = Some 0.
Proof.
  cbv zeta. split; [run|]. split; [run|]. split; [|split; run].
  vm_compute. intros [H|[H|[]]]; discriminate H.
Qed.

(** The three ways through the off-script on a dual-link panel. *)
Lemma nt35950_off_stops_at_first_failure_witness :
  let w := ex_world (ex_dual 0) in
  (exists w', nt35950_off ex_LPM ex_transfer_display_off_fails w = Ret (-5) w' /\
              nt w' = nt w /\
              trace w' = [EvDsiWrite 0 SetDisplayOff;
                          EvDevErr "Failed to set display off: %d\n" (-5)]) /\
  (exists w', nt35950_off ex_LPM ex_transfer_enter_sleep_fails w = Ret (-5) w' /\
              nt w' = nt w /\
              trace w' = [EvDsiWrite 0 SetDisplayOff; EvUsleepRange 10000 11000;
                          EvDsiWrite 0 EnterSleepMode;
                          EvDevErr "Failed to enter sleep mode: %d\n" (-5)]) /\
  (exists w' l0 l1,
     nt35950_off ex_LPM ex_transfer_ok w = Ret 0 w' /\
     trace w' = [EvDsiWrite 0 SetDisplayOff; EvUsleepRange 10000 11000;
                 EvDsiWrite 0 EnterSleepMode; EvMsleep 150] /\
     dsi0 (nt w') = Some l0 /\ dsi1 (nt w') = Some l1 /\
     lpm_flag ex_LPM l0 = ex_LPM /\ lpm_flag ex_LPM l1 = ex_LPM).
Proof.
  intros w. split; [|split].
  - apply (nt35950_off_stops_at_first_failure ex_LPM ex_transfer_display_off_fails w).
    + discriminate.
    + reflexivity.
  - apply (nt35950_off_stops_at_first_failure ex_LPM ex_transfer_enter_sleep_fails w).
    + discriminate.
    + discriminate.
    + reflexivity.
  - apply (nt35950_off_stops_at_first_failure ex_LPM ex_transfer_ok w).
    + discriminate.
    + discriminate.
    + discriminate.
    + discriminate.
Defined.

(** The panel prepared from power-off, then [unprepare] with a failing
    [enter sleep]. *)
Lemma nt35950_unprepare_always_witness :
  let w0 := ex_world (ex_dual 0) in
  let w := final (nt35950_prepare ex_LPM ex_enable_ok ex_transfer_enter_sleep_fails w0) in
  exists w' script,
    nt35950_unprepare ex_LPM ex_transfer_enter_sleep_fails w = Ret 0 w' /\
    trace w' = trace w ++ script ++
                 [EvGpioSet 0; EvRegulatorBulkDisable NT35950_VREG_MAX] /\
    Forall script_event script /\
    reset_value w' = 0 /\
    (forall i, use_count w' i =
               if (i <? 6)%nat then Nat.pred (use_count w i) else use_count w i) /\
    prepared (nt w') = false.
Proof.
  intros w0 w.
  apply (nt35950_unprepare_always ex_LPM ex_enable_ok ex_transfer_enter_sleep_fails w).
  - apply (reach_prepare ex_LPM ex_enable_ok ex_transfer_enter_sleep_fails w0 0 w).
    + apply reach_unprepared. reflexivity.
    + run.
  - run.
Defined.

(** [prepare] from power-off with every regulator and transfer fine. *)
Lemma nt35950_prepare_power_up_witness :
  let w := ex_world (ex_dual 0) in
  let o := nt35950_prepare ex_LPM ex_enable_ok ex_transfer_ok w in
  (exists script,
     trace (final o) = trace w ++ power_up_events ++ reset_pulse_events ++ script /\
     Forall (fun e => ~ power_on_event e) script) /\
  reset_value (final o) = 1 /\
  (forall w0,
     map (supply (nt (final (nt35950_sharp_init_vregs ex_regs_ok
                               (set_nt w0 nt35950_zero)))))
         [0; 5; 3; 4; 1; 2]%nat
     = ["vddio"; "dvdd"; "avdd"; "avee"; "tvddio"; "tavdd"]%string).
Proof.
  intros w o.
  apply (nt35950_prepare_power_up ex_LPM ex_enable_ok ex_transfer_ok ex_regs_ok w).
  - reflexivity.
  - intros t i. reflexivity.
Defined.

(** C6 fails on the code: a complete on-script is 19 transfers, not 13. *)
Lemma nt35950_on_is_not_13_writes :
  let w := ex_world (ex_dual 0) in
  let o := nt35950_on ex_LPM ex_transfer_ok w in
  o = Ret 0 (final o) /\
  transport_writes (trace (final o)) = 19%nat /\
  transport_writes (trace (final o)) <> 13%nat.
Proof.
  cbv zeta. split; [run|]. split; [run|].
  vm_compute. discriminate.
Qed.

(** The on-script on a dual-link panel with every transfer fine. *)
Lemma nt35950_on_success_witness :
  let w := ex_world (ex_dual 0) in
  let w' := final (nt35950_on ex_LPM ex_transfer_ok w) in
  exists d l0 l1,
    desc (nt w) = Some d /\
    trace w' = trace w ++ on_script_events d /\
    transport_writes (on_script_events d) = 19%nat /\
    dsi0 (nt w') = Some l0 /\ dsi1 (nt w') = Some l1 /\
    lpm_flag ex_LPM l0 = 0 /\ lpm_flag ex_LPM l1 = 0.
Proof.
  intros w w'.
  apply (nt35950_on_success ex_LPM ex_transfer_ok w w').
  run.
Defined.

(** C8 fails on the code: with the low-power-mode bit clear on both links
    before the on-script, it is set on both after the off-script. *)
Lemma nt35950_on_off_does_not_restore_lpm :
  let w := ex_world (ex_dual 0) in
  let o1 := nt35950_on ex_LPM ex_transfer_ok w in
  let o2 := nt35950_off ex_LPM ex_transfer_ok (final o1) in
  o1 = Ret 0 (final o1) /\ o2 = Ret 0 (final o2) /\
  option_map (lpm_flag ex_LPM) (dsi0 (nt w)) = Some 0 /\
  option_map (lpm_flag ex_LPM) (dsi1 (nt w)) = Some 0 /\
  option_map (lpm_flag ex_LPM) (dsi0 (nt (final o2))) = Some 2048 /\
  option_map (lpm_flag ex_LPM) (dsi1 (nt (final o2))) = Some 2048.
Proof.
  cbv zeta. runs.
Qed.

(** The on-script, then the off-script, on a dual-link panel. *)
Lemma nt35950_on_off_lpm_witness :
  let w := ex_world (ex_dual 0) in
  let w1 := final (nt35950_on ex_LPM ex_transfer_ok w) in
  let w2 := final (nt35950_off ex_LPM ex_transfer_ok w1) in
  exists a0 a1 b0 b1,
    dsi0 (nt w) = Some a0 /\ dsi1 (nt w) = Some a1 /\
    dsi0 (nt w2) = Some b0 /\ dsi1 (nt w2) = Some b1 /\
    lpm_flag ex_LPM b0 = ex_LPM /\ lpm_flag ex_LPM b1 = ex_LPM /\
    Z.land (mode_flags b0) (Z.lnot ex_LPM) = Z.land (mode_flags a0) (Z.lnot ex_LPM) /\
    Z.land (mode_flags b1) (Z.lnot ex_LPM) = Z.land (mode_flags a1) (Z.lnot ex_LPM) /\
    (lpm_flag ex_LPM b0 = lpm_flag ex_LPM a0 <-> lpm_flag ex_LPM a0 = ex_LPM) /\
    (lpm_flag ex_LPM b1 = lpm_flag ex_LPM a1 <-> lpm_flag ex_LPM a1 = ex_LPM).
Proof.
  intros w w1 w2.
  apply (nt35950_on_off_lpm ex_LPM ex_transfer_ok w w1 w2); run.
Defined.

(** C7 fails on the code: on the single-link panel that [probe] builds,
    [unprepare] returns 0 and changes nothing, a [prepare] whose second rail
    refuses returns that error, and an off-script whose first transfer fails
    returns that error: none of them gets to [dsi[1]]. *)
Lemma nt35950_single_link_calls_without_fault :
  let w := final (nt35950_probe ex_LPM ex_ENOMEM ex_ENODEV ex_EPROBE_DEFER
                    ex_MODE_VIDEO ex_MODE_EOT_PACKET ex_CLOCK_NON_CONTINUOUS
                    ex_regs_ok (ex_env ex_single_desc) (ex_link 0)
                    (ex_world nt35950_zero)) in
  let o1 := nt35950_prepare ex_LPM ex_enable_dvdd_fails ex_transfer_ok w in
  let o2 := nt35950_off ex_LPM ex_transfer_display_off_fails w in
  dsi1 (nt w) = None /\
  nt35950_unprepare ex_LPM ex_transfer_ok w = Ret 0 w /\
  o1 = Ret (-22) (final o1) /\
  o2 = Ret (-5) (final o2).
Proof.
  cbv zeta. runs.
Qed.

(** A bound single-link panel. *)
Lemma nt35950_single_link_null_deref_witness :
  let w := ex_world (ex_single 0) in
  (exists w', nt35950_on ex_LPM ex_transfer_ok w = Oops w') /\
  (exists w', nt35950_prepare ex_LPM ex_enable_ok ex_transfer_ok w = Oops w') /\
  (exists w', nt35950_off ex_LPM ex_transfer_ok w = Oops w') /\
  nt35950_unprepare ex_LPM ex_transfer_ok w = Ret 0 w /\
  dsi1 (nt (final (nt35950_probe ex_LPM ex_ENOMEM ex_ENODEV ex_EPROBE_DEFER
                     ex_MODE_VIDEO ex_MODE_EOT_PACKET ex_CLOCK_NON_CONTINUOUS
                     ex_regs_ok (ex_env ex_single_desc) (ex_link 0)
                     (ex_world nt35950_zero)))) = None.
Proof.
  intros w.
  destruct (nt35950_single_link_null_deref ex_LPM ex_enable_ok ex_transfer_ok
              ex_ENOMEM ex_ENODEV ex_EPROBE_DEFER
              ex_MODE_VIDEO ex_MODE_EOT_PACKET ex_CLOCK_NON_CONTINUOUS
              ex_regs_ok (ex_env ex_single_desc) w eq_refl)
    as (Hon & Hprep & Hoff & Hun & Hprobe).
  split; [exact Hon|].
  split; [apply Hprep; [reflexivity|intros t i; reflexivity]|].
  split; [apply Hoff; discriminate|].
  split; [apply Hun; apply reach_unprepared; reflexivity|].
  apply (Hprobe (ex_link 0) (ex_world nt35950_zero) ex_single_desc); reflexivity.
Defined.

(** C10 fails on the code: vddio is out of range, or the regulator handles
    were not acquired at all, and [probe] still returns 0. *)
Lemma nt35950_probe_succeeds_despite_regulators :
  let probe regs :=
    nt35950_probe ex_LPM ex_ENOMEM ex_ENODEV ex_EPROBE_DEFER
      ex_MODE_VIDEO ex_MODE_EOT_PACKET ex_CLOCK_NON_CONTINUOUS
      regs (ex_env sharp_ls055d1sx04) (ex_link 0) (ex_world nt35950_zero) in
  regulator_is_supported_voltage_result ex_regs_unsupported 0 1750000 1950000 = 0 /\
  probe ex_regs_unsupported = Ret 0 (final (probe ex_regs_unsupported)) /\
  devm_regulator_bulk_get_result ex_regs_bulk_get_fails = -19 /\
  probe ex_regs_bulk_get_fails = Ret 0 (final (probe ex_regs_bulk_get_fails)).
Proof.
  cbv zeta. runs.
Qed.

(** The Sharp panel binds with vddio out of range. *)
Lemma nt35950_probe_regulator_failure_not_fatal_witness :
  exists w',
    nt35950_probe ex_LPM ex_ENOMEM ex_ENODEV ex_EPROBE_DEFER
      ex_MODE_VIDEO ex_MODE_EOT_PACKET ex_CLOCK_NON_CONTINUOUS
      ex_regs_unsupported (ex_env sharp_ls055d1sx04) (ex_link 0)
      (ex_world nt35950_zero) = Ret 0 w' /\
    desc (nt w') = Some sharp_ls055d1sx04 /\ prepared (nt w') = false /\
    present (dsi0 (nt w')) = true /\
    present (dsi1 (nt w')) = is_dual_dsi sharp_ls055d1sx04 /\
    reset_value w' = 0.
Proof.
  apply (nt35950_probe_regulator_failure_not_fatal ex_LPM ex_ENOMEM ex_ENODEV
           ex_EPROBE_DEFER ex_MODE_VIDEO ex_MODE_EOT_PACKET ex_CLOCK_NON_CONTINUOUS
           ex_regs_unsupported (ex_env sharp_ls055d1sx04) (ex_link 0)
           (ex_world nt35950_zero) sharp_ls055d1sx04).
  - reflexivity.
  - reflexivity.
  - reflexivity.
  - intros _. repeat split. discriminate.
  - reflexivity.
  - intros i. discriminate.
Defined.

(** *** The further properties on concrete panels *)

(** [prepare] from power-off on a dual-link panel. *)
Lemma lifecycle_transfers_on_primary_only_witness :
  let w := ex_world (ex_dual 0) in
  exists rest,
    trace (final (nt35950_prepare ex_LPM ex_enable_ok ex_transfer_ok w))
      = trace w ++ rest /\
    forall l p, In (EvDsiWrite l p) rest -> l = 0%nat.
Proof.
  intros w.
  apply (lifecycle_transfers_on_primary_only ex_LPM ex_enable_ok ex_transfer_ok
           (nt35950_prepare ex_LPM ex_enable_ok ex_transfer_ok) w).
  right; right; left; reflexivity.
Defined.


(** The on-script with its first transfer failing with -EIO. *)
Lemma nt35950_on_error_leaves_lpm_set_witness :
  let w := ex_world (ex_dual 0) in
  let w' := final (nt35950_on ex_LPM ex_transfer_fails w) in
  exists l0 l1,
    dsi0 (nt w) = Some l0 /\ dsi1 (nt w) = Some l1 /\
    nt w' = set_dsi
              (set_dsi (nt w) 0
                 (Some (set_mode_flags l0 (lpm_set ex_LPM (mode_flags l0)))))
              1 (Some (set_mode_flags l1 (lpm_set ex_LPM (mode_flags l1)))) /\
    lpm_flag ex_LPM (set_mode_flags l0 (lpm_set ex_LPM (mode_flags l0))) = ex_LPM /\
    lpm_flag ex_LPM (set_mode_flags l1 (lpm_set ex_LPM (mode_flags l1))) = ex_LPM.
Proof.
  intros w w'.
  apply (nt35950_on_error_leaves_lpm_set ex_LPM ex_transfer_fails w (-5) w').
  - run.
  - lia.
Defined.

(** [prepare] from power-off with every regulator and transfer fine. *)
Lemma nt35950_prepare_success_witness :
  let w := ex_world (ex_dual 0) in
  let w' := final (nt35950_prepare ex_LPM ex_enable_ok ex_transfer_ok w) in
  exists d l0 l1,
    desc (nt w) = Some d /\ dsi0 (nt w) = Some l0 /\ dsi1 (nt w) = Some l1 /\
    trace w' = trace w ++ power_up_events ++ reset_pulse_events ++ on_script_events d /\
    (forall i, use_count w' i =
               if (i <? 6)%nat then S (use_count w i) else use_count w i) /\
    reset_value w' = 1 /\
    prepared (nt w') = true /\
    dsi0 (nt w') =
      Some (set_mode_flags l0 (lpm_clear ex_LPM (lpm_set ex_LPM (mode_flags l0)))) /\
    dsi1 (nt w') =
      Some (set_mode_flags l1 (lpm_clear ex_LPM (lpm_set ex_LPM (mode_flags l1)))).
Proof.
  intros w w'.
  apply (nt35950_prepare_success ex_LPM ex_enable_ok ex_transfer_ok w w').
  - reflexivity.
  - run.
Defined.

(** [prepare] whose on-script fails at its first transfer. *)
Lemma nt35950_prepare_result_and_state_witness :
  let w := ex_world (ex_dual 0) in
  let w' := final (nt35950_prepare ex_LPM ex_enable_ok ex_transfer_fails w) in
  (prepared (nt w') = true <-> -5 = 0) /\
  (-5 <> 0 -> nt35950_unprepare ex_LPM ex_transfer_fails w' = Ret 0 w').
Proof.
  intros w w'.
  apply (nt35950_prepare_result_and_state ex_LPM ex_enable_ok ex_transfer_fails
           w (-5) w').
  run.
Defined.

(** [prepare] from power-off, then [unprepare]. *)
Lemma nt35950_prepare_unprepare_round_trip_witness :
  let w := ex_world (ex_dual 0) in
  let w1 := final (nt35950_prepare ex_LPM ex_enable_ok ex_transfer_ok w) in
  exists w2,
    nt35950_unprepare ex_LPM ex_transfer_ok w1 = Ret 0 w2 /\
    (forall i, use_count w2 i = use_count w i) /\
    reset_value w2 = 0 /\ prepared (nt w2) = false.
Proof.
  intros w w1.
  apply (nt35950_prepare_unprepare_round_trip ex_LPM ex_enable_ok ex_transfer_ok
           w w1).
  - reflexivity.
  - run.
Defined.

(** The panel after one [prepare] from power-off. *)
Lemma reachable_prepared_state_witness :
  let w0 := ex_world (ex_dual 0) in
  let w := final (nt35950_prepare ex_LPM ex_enable_ok ex_transfer_ok w0) in
  reset_value w = 1 /\
  exists l0 l1,
    dsi0 (nt w) = Some l0 /\ dsi1 (nt w) = Some l1 /\
    lpm_flag ex_LPM l0 = 0 /\ lpm_flag ex_LPM l1 = 0.
Proof.
  intros w0 w.
  apply (reachable_prepared_state ex_LPM ex_enable_ok ex_transfer_ok w).
  - apply (reach_prepare ex_LPM ex_enable_ok ex_transfer_ok w0 0 w).
    + apply reach_unprepared. reflexivity.
    + run.
  - run.
Defined.

(** [prepare] from power-off with dvdd refusing. *)
Lemma nt35950_prepare_rail_dichotomy_witness :
  let w := ex_world (ex_dual 0) in
  (exists n idx r w',
     nth_error power_up_events n = Some (EvRegulatorEnable idx) /\
     r = ex_enable_dvdd_fails (trace w ++ firstn n power_up_events) idx /\
     r <> 0 /\
     nt35950_prepare ex_LPM ex_enable_dvdd_fails ex_transfer_ok w = Ret r w' /\
     trace w' = trace w ++ firstn (S n) power_up_events /\
     use_count w' = enabled_by (firstn n power_up_events) (use_count w) /\
     nt w' = nt w /\ reset_value w' = reset_value w) \/
  (forall n idx,
     nth_error power_up_events n = Some (EvRegulatorEnable idx) ->
     ex_enable_dvdd_fails (trace w ++ firstn n power_up_events) idx = 0) /\
  nt35950_prepare ex_LPM ex_enable_dvdd_fails ex_transfer_ok w =
    prepare_script ex_LPM ex_transfer_ok (powered_up w).
Proof.
  intros w.
  apply (nt35950_prepare_rail_dichotomy ex_LPM ex_enable_dvdd_fails
           ex_transfer_ok w).
  reflexivity.
Defined.

(** The voltage checks with vddio out of range. *)
Lemma nt35950_sharp_init_vregs_result_witness :
  let w := ex_world nt35950_zero in
  let g := devm_regulator_bulk_get_result ex_regs_unsupported in
  let c := regulator_is_supported_voltage_result ex_regs_unsupported in
  exists r w1,
    nt35950_sharp_init_vregs ex_regs_unsupported w = Ret r w1 /\
    (g < 0 ->
     r = g /\
     trace w1 = trace w ++ [EvDevErr "Failed to get regulators: %d\n" g]) /\
    (0 <= g ->
     trace w1 = trace w /\
     (r = 0 <->
      c 0%nat 1750000 1950000 = 0 \/ c 1%nat 1750000 1950000 = 0 \/
      c 2%nat 2800000 3300000 = 0 \/ c 3%nat 5200000 5900000 = 0 \/
      c 4%nat 5200000 5900000 = 0 \/ c 5%nat 1300000 1400000 = 0) /\
     (r <> 0 -> r = c 5%nat 1300000 1400000)).
Proof.
  intros w.
  exact (nt35950_sharp_init_vregs_result ex_regs_unsupported w).
Defined.

(** Binding the Sharp panel. *)
Lemma nt35950_probe_returns_witness :
  let w := ex_world nt35950_zero in
  exists r w',
    nt35950_probe ex_LPM ex_ENOMEM ex_ENODEV ex_EPROBE_DEFER
      ex_MODE_VIDEO ex_MODE_EOT_PACKET ex_CLOCK_NON_CONTINUOUS
      ex_regs_ok (ex_env sharp_ls055d1sx04) (ex_link 0) w = Ret r w' /\
    use_count w' = use_count w /\
    (reset_value w' = reset_value w \/ reset_value w' = 0) /\
    (devm_kzalloc_ok (ex_env sharp_ls055d1sx04) = true -> prepared (nt w') = false).
Proof.
  intros w.
  exact (nt35950_probe_returns ex_LPM ex_ENOMEM ex_ENODEV ex_EPROBE_DEFER
           ex_MODE_VIDEO ex_MODE_EOT_PACKET ex_CLOCK_NON_CONTINUOUS
           ex_regs_ok (ex_env sharp_ls055d1sx04) (ex_link 0) w).
Defined.

(** Binding the Sharp panel with everything there. *)
Lemma nt35950_probe_configures_links_witness :
  let d := sharp_ls055d1sx04 in
  let w := ex_world nt35950_zero in
  let link := {| lanes := num_lanes d;
                 format := MIPI_DSI_FMT_RGB888;
                 mode_flags := probe_mode_flags ex_LPM ex_MODE_VIDEO
                                 ex_MODE_EOT_PACKET ex_CLOCK_NON_CONTINUOUS d |} in
  exists w' logs,
    nt35950_probe ex_LPM ex_ENOMEM ex_ENODEV ex_EPROBE_DEFER
      ex_MODE_VIDEO ex_MODE_EOT_PACKET ex_CLOCK_NON_CONTINUOUS
      ex_regs_ok (ex_env d) (ex_link 0) w = Ret 0 w' /\
    dsi0 (nt w') = Some link /\
    dsi1 (nt w') = (if is_dual_dsi d then Some link else None) /\
    trace w' = trace w ++ logs ++ [EvPanelAdd; EvDsiAttach 0] ++
                 (if is_dual_dsi d then [EvDsiAttach 1] else []) ++
                 [EvGpioSet 0] /\
    Forall script_event logs.
Proof.
  intros d w.
  apply (nt35950_probe_configures_links ex_LPM ex_ENOMEM ex_ENODEV ex_EPROBE_DEFER
           ex_MODE_VIDEO ex_MODE_EOT_PACKET ex_CLOCK_NON_CONTINUOUS
           ex_regs_ok (ex_env d) (ex_link 0) w d).
  - reflexivity.
  - reflexivity.
  - reflexivity.
  - intros _. split; [reflexivity|]. split; [reflexivity|]. discriminate.
  - reflexivity.
  - intros i. discriminate.
Defined.

(** Binding the Sharp panel before the host of its secondary link. *)
Lemma nt35950_probe_secondary_missing_witness :
  let d := sharp_ls055d1sx04 in
  let w := ex_world nt35950_zero in
  exists w' logs,
    nt35950_probe ex_LPM ex_ENOMEM ex_ENODEV ex_EPROBE_DEFER
      ex_MODE_VIDEO ex_MODE_EOT_PACKET ex_CLOCK_NON_CONTINUOUS
      ex_regs_ok (ex_env_no_host d) (ex_link 0) w
      = Ret (if negb (of_graph_get_remote_node_ok (ex_env_no_host d))
             then - ex_ENODEV
             else if negb (of_find_mipi_dsi_host_by_node_ok (ex_env_no_host d))
                  then - ex_EPROBE_DEFER
                  else - ex_ENODEV) w' /\
    dsi0 (nt w') = None /\ dsi1 (nt w') = None /\
    reset_value w' = reset_value w /\
    use_count w' = use_count w /\
    trace w' = trace w ++ logs /\ Forall script_event logs.
Proof.
  intros d w.
  apply (nt35950_probe_secondary_missing ex_LPM ex_ENOMEM ex_ENODEV ex_EPROBE_DEFER
           ex_MODE_VIDEO ex_MODE_EOT_PACKET ex_CLOCK_NON_CONTINUOUS
           ex_regs_ok (ex_env_no_host d) (ex_link 0) w d).
  - reflexivity.
  - reflexivity.
  - reflexivity.
  - reflexivity.
  - right. left. reflexivity.
Defined.

(** Binding the Sharp panel with the attach of link 0 refused. *)
Lemma nt35950_probe_attach_failure_witness :
  let d := sharp_ls055d1sx04 in
  let w := ex_world nt35950_zero in
  exists w' logs,
    nt35950_probe ex_LPM ex_ENOMEM ex_ENODEV ex_EPROBE_DEFER
      ex_MODE_VIDEO ex_MODE_EOT_PACKET ex_CLOCK_NON_CONTINUOUS
      ex_regs_ok (ex_env_attach_fails d) (ex_link 0) w
      = Ret (mipi_dsi_attach_result (ex_env_attach_fails d) 0%nat) w' /\
    trace w' = trace w ++ logs ++
                 [EvPanelAdd; EvDsiAttach 0;
                  EvDevErr "Failed to attach to DSI%d host: %d\n"
                           (mipi_dsi_attach_result (ex_env_attach_fails d) 0%nat)] /\
    Forall script_event logs /\
    reset_value w' = reset_value w /\
    present (dsi0 (nt w')) = true.
Proof.
  intros d w.
  apply (nt35950_probe_attach_failure ex_LPM ex_ENOMEM ex_ENODEV ex_EPROBE_DEFER
           ex_MODE_VIDEO ex_MODE_EOT_PACKET ex_CLOCK_NON_CONTINUOUS
           ex_regs_ok (ex_env_attach_fails d) (ex_link 0) w d).
  - reflexivity.
  - reflexivity.
  - reflexivity.
  - intros _. split; [reflexivity|]. split; [reflexivity|]. discriminate.
  - reflexivity.
  - reflexivity.
Defined.

(** The display-output write of the Sharp panel. *)
Lemma nt35950_set_dispout_byte_witness :
  let w := ex_world (ex_dual 0) in
  let w' := final (nt35950_set_dispout ex_transfer_ok w) in
  exists d b,
    desc (nt w) = Some d /\
    trace w' = trace w ++ [EvDsiWrite 0 (Buffer [0xb4; b])] /\
    2 = ex_transfer_ok (trace w) 0%nat (Buffer [0xb4; b]) /\
    Z.testbit b 0 = enable_sram d /\
    Z.testbit b 4 = is_video_mode d /\
    Z.land b (Z.lnot 0x11) = 0 /\
    nt w' = nt w.
Proof.
  intros w w'.
  apply (nt35950_set_dispout_byte ex_transfer_ok w 2 w').
  run.
Defined.

(** Unbinding a dual-link panel whose secondary detach fails. *)
Lemma nt35950_remove_releases_witness :
  let p := ex_dual 0 in
  let detach_result := ex_detach_secondary_fails in
  exists calls,
    nt35950_remove detach_result p = Some (0, calls) /\
    filter (fun c => match c with RmDevErr _ _ => false | _ => true end) calls
      = [RmDetach 0] ++
        (if present (dsi1 p) then [RmDetach 1; RmUnregister 1] else []) ++
        [RmPanelRemove] /\
    (forall msg c, In (RmDevErr msg c) calls ->
       c < 0 /\ exists link, c = detach_result link /\ In (RmDetach link) calls) /\
    (forall link, In (RmDetach link) calls -> detach_result link < 0 ->
       exists msg, In (RmDevErr msg (detach_result link)) calls).
Proof.
  intros p detach_result.
  apply (nt35950_remove_releases detach_result p).
  discriminate.
Defined.

End NT35950.
